(** * Subscription store and notification scheduler of the exchange-rate bot

    A shallow embedding of [main.py]: the [subs] table and the three store
    functions ([add_sub], [remove_all_subs], [list_subs]), the argument
    parsing of [/subscribe_daily], and one iteration of [notifier_loop]
    together with the loop around it.

    Conventions.
    - Python [int] is [Z].  The text of a message, which a user types, is
      the list of its code points ([Text.str]); the texts the program
      builds itself (kinds, formatted times, timestamps, callback data) are
      [string]s, one [ascii] per code point, all of them below U+0100.
    - The SQLite table is the list of its rows in rowid order, next to the
      [sqlite_sequence] counter that [AUTOINCREMENT] keeps.
    - A coroutine that can raise returns a sum [exn + _]; the effects of a
      scheduler iteration (messages sent, the line printed, the sleep) are
      collected in a trace of events. *)

From Stdlib Require Import List String Ascii ZArith Bool Lia Permutation Sorted.
Import ListNotations.
Local Open Scope string_scope.
Local Open Scope list_scope.
Local Open Scope Z_scope.

Set Implicit Arguments.

(** ** Exceptions *)

(** What a coroutine may raise.  [Exception] stands for every instance of a
    subclass of Python's [Exception] (HTTP and JSON errors of the rate
    clients, [ValueError], [sqlite3.Error], the Telegram API errors);
    [CancelledError] derives from [BaseException] only and is what a
    cancelled task receives at an [await]. *)
Inductive exn : Type :=
| Exception (what : string)
| CancelledError.

(** ** The [subs] table *)

Module Store.

(** One row of [subs].  [daily_time] is nullable. *)
Record Row : Type := mkRow {
  id : Z;
  user_id : Z;
  chat_id : Z;
  kind : string;
  daily_time : option string;
  created_at : string
}.

(** The database file: the table and the largest rowid ever handed out. *)
Record DB : Type := mkDB {
  rows : list Row;
  seq : Z
}.

(** [init_db] on a fresh file: [CREATE TABLE IF NOT EXISTS subs]. *)
Definition init_db : DB := mkDB [] 0.

(** [CHECK(kind IN ('hourly','daily'))]. *)
Definition check_kind (k : string) : bool :=
  (k =? "hourly")%string || (k =? "daily")%string.

(** [WHERE user_id=? AND kind=k]. *)
Definition owned_kind (u : Z) (k : string) (r : Row) : bool :=
  (user_id r =? u) && (kind r =? k)%string.

(** [WHERE user_id=?]. *)
Definition owned (u : Z) (r : Row) : bool := user_id r =? u.

(** [DELETE FROM subs WHERE p]: the rows kept, in rowid order. *)
Definition delete_where (p : Row -> bool) (t : list Row) : list Row :=
  filter (fun r => negb (p r)) t.

(** The rowid [AUTOINCREMENT] picks: one more than the largest rowid that
    ever existed in the table. *)
Definition next_id (db : DB) : Z :=
  1 + fold_right Z.max (seq db) (map id (rows db)).

(** Python's truth value of an optional string: [None] and [""] are false. *)
Definition truthy (s : option string) : bool :=
  match s with
  | None => false
  | Some EmptyString => false
  | Some _ => true
  end.

(** [add_sub(user_id, chat_id, kind, daily_time)].  [now] is the text of
    [datetime.now(timezone.utc).isoformat()].  An exception leaves the
    connection without [commit], so the database is the one before. *)
Definition add_sub (u c : Z) (k : string) (dt : option string)
    (now : string) (db : DB) : exn + DB :=
  if (k =? "daily")%string && negb (truthy dt) then
    inl (Exception "ValueError")
  else
    let kept :=
      if (k =? "hourly")%string
      then delete_where (owned_kind u "hourly") (rows db)
      else delete_where (owned_kind u "daily") (rows db) in
    if check_kind k then
      let i := next_id db in
      inr (mkDB (kept ++ [mkRow i u c k dt now]) i)
    else
      inl (Exception "IntegrityError").

(** [remove_all_subs(user_id)]: the cursor's [rowcount] and the database
    after the commit. *)
Definition remove_all_subs (u : Z) (db : DB) : Z * DB :=
  (Z.of_nat (List.length (filter (owned u) (rows db))),
   mkDB (delete_where (owned u) (rows db)) (seq db)).

(** [ORDER BY kind]: insertion of a row into a list ordered by [kind]
    (byte-wise comparison, SQLite's BINARY collation), after the rows that
    compare smaller or equal, so rows of equal [kind] stay in rowid order.
    SQL leaves the order of such rows open; a table the store functions
    built has at most one row per user and kind, so none to order. *)
Fixpoint insert_by_kind (r : Row) (l : list Row) : list Row :=
  match l with
  | [] => [r]
  | x :: l' =>
      if (kind x <=? kind r)%string then x :: insert_by_kind r l'
      else r :: x :: l'
  end.

Definition order_by_kind (l : list Row) : list Row :=
  fold_left (fun acc r => insert_by_kind r acc) l [].

(** The dictionary [{"kind": r[0], "daily_time": r[1]}] built per row. *)
Definition sub_entry (r : Row) : string * option string :=
  (kind r, daily_time r).

(** [list_subs(user_id)]. *)
Definition list_subs (u : Z) (db : DB) : list (string * option string) :=
  map sub_entry (order_by_kind (filter (owned u) (rows db))).

End Store.

(** ** Text primitives of the Python runtime used by the handlers *)

Module Text.

(** A Python [str]: the list of its code points. *)
Definition str : Type := list N.

(** The code points of a text written with characters below U+0100. *)
Definition of_string (s : string) : str :=
  map N_of_ascii (list_ascii_of_string s).

(** The colon, U+003A. *)
Definition colon : N := 58%N.

(** [str.isspace] of one character, which is what [str.split()] cuts at:
    TAB..CR, FS..US, SPACE, NEL, NBSP, U+1680, U+2000..U+200A, U+2028,
    U+2029, U+202F, U+205F and U+3000. *)
Definition isspace (c : N) : bool :=
  (((9 <=? c) && (c <=? 13)) || ((28 <=? c) && (c <=? 32))
   || (c =? 133) || (c =? 160) || (c =? 5760)
   || ((8192 <=? c) && (c <=? 8202))
   || (c =? 8232) || (c =? 8233) || (c =? 8239) || (c =? 8287)
   || (c =? 12288))%N.

(** The part of the Unicode character database of the Python runtime that
    [str.isdigit] and [int] read.  The tables belong to the runtime and
    change with its Unicode version, so they are a parameter:
    [decimal_value c] is [unicodedata.decimal] of the character, defined
    on the decimal digits of every script (category Nd);
    [digit_not_decimal c] holds of the characters that have a digit value
    without being decimal digits, such as the superscripts.  The three
    laws hold in every version: the characters 0 to 9 are decimal digits
    with their values, the colon is no decimal digit, and no character
    below U+0080 is a digit without being a decimal digit. *)
Record unicode_db : Type := mkUnicode {
  decimal_value : N -> option Z;
  digit_not_decimal : N -> bool;
  decimal_value_ascii :
    forall c, (48 <= c <= 57)%N -> decimal_value c = Some (Z.of_N c - 48);
  colon_not_decimal : decimal_value colon = None;
  digit_not_decimal_ascii :
    forall c, (c < 128)%N -> digit_not_decimal c = false
}.

Definition is_some {A} (o : option A) : bool :=
  match o with Some _ => true | None => false end.

(** The characters [int] reads as digits: the decimal digits. *)
Definition isdecimal_char (U : unicode_db) (c : N) : bool :=
  is_some (decimal_value U c).

(** [str.isdigit] of one character: a decimal digit or another character
    with a digit value. *)
Definition isdigit_char (U : unicode_db) (c : N) : bool :=
  isdecimal_char U c || digit_not_decimal U c.

(** [s.isdigit()]: at least one character and all of them digits. *)
Definition isdigit (U : unicode_db) (s : str) : bool :=
  match s with
  | [] => false
  | _ => forallb (isdigit_char U) s
  end.

(** [s.count(c)] for a one-character [c]. *)
Fixpoint count (c : N) (s : str) : Z :=
  match s with
  | [] => 0
  | a :: s' => (if (a =? c)%N then 1 else 0) + count c s'
  end.

(** [s.split(c)] for a one-character separator: the pieces between the
    occurrences of [c], empty pieces included. *)
Fixpoint split_on (c : N) (s : str) : list str :=
  match s with
  | [] => [[]]
  | a :: s' =>
      if (a =? c)%N then [] :: split_on c s'
      else match split_on c s' with
           | [] => [[a]]
           | p :: ps => (a :: p) :: ps
           end
  end.

(** [s.split()]: the maximal runs of characters that are not white space.
    [cur] is the run being read, in reverse. *)
Fixpoint split_ws_aux (s : str) (cur : list N) : list str :=
  let flush (rest : list str) :=
    match cur with
    | [] => rest
    | _ => rev cur :: rest
    end in
  match s with
  | [] => flush []
  | a :: s' =>
      if isspace a then flush (split_ws_aux s' [])
      else split_ws_aux s' (a :: cur)
  end.

Definition split (s : str) : list str := split_ws_aux s [].

(** Value of a run of decimal digits read left to right, [acc] being the
    value of the digits already read; [None] at any other character. *)
Fixpoint digits_value (U : unicode_db) (s : str) (acc : Z) : option Z :=
  match s with
  | [] => Some acc
  | a :: s' =>
      match decimal_value U a with
      | Some d => digits_value U s' (10 * acc + d)
      | None => None
      end
  end.

(** [int(s)] for a string on which [isdigit] holds, the only strings the
    handler passes to it: the value when every character is a decimal
    digit, of whatever script, [ValueError] otherwise (a superscript digit
    is no literal).  Signs, underscores and surrounding white space, which
    [int] accepts too, never pass [isdigit]; and a message of at most 4096
    characters, the longest Telegram delivers, stays below the 4300 digits
    at which [int] gives up. *)
Definition int (U : unicode_db) (s : str) : exn + Z :=
  match s with
  | [] => inl (Exception "ValueError")
  | _ => match digits_value U s 0 with
         | Some v => inr v
         | None => inl (Exception "ValueError")
         end
  end.

Definition digit_char (d : Z) : ascii := ascii_of_nat (Z.to_nat (48 + d)).

(** Decimal digits of a non-negative integer, most significant first. *)
Fixpoint decimal_aux (fuel : nat) (n : Z) (acc : string) : string :=
  match fuel with
  | O => acc
  | S fuel' =>
      let acc' := String (digit_char (n mod 10)) acc in
      if n / 10 =? 0 then acc' else decimal_aux fuel' (n / 10) acc'
  end.

Definition decimal (n : Z) : string := decimal_aux (S (Z.to_nat n)) n "".

(** [f"{n:02d}"]: sign and digits, zero-filled to two characters. *)
Definition fmt_02d (n : Z) : string :=
  if n <? 0 then String "-" (decimal (- n))
  else let d := decimal n in
       if (String.length d <? 2)%nat then String "0" d else d.

(** *** A database to run the handlers with *)

(** The decimal digits of two scripts: 0 to 9 and the Arabic-Indic digits
    U+0660..U+0669. *)
Definition sample_decimal (c : N) : option Z :=
  if ((48 <=? c) && (c <=? 57))%N then Some (Z.of_N c - 48)
  else if ((1632 <=? c) && (c <=? 1641))%N then Some (Z.of_N c - 1632)
  else None.

(** The superscripts two, three and one. *)
Definition sample_digit_not_decimal (c : N) : bool :=
  ((c =? 178) || (c =? 179) || (c =? 185))%N.

Lemma sample_decimal_ascii c :
  (48 <= c <= 57)%N -> sample_decimal c = Some (Z.of_N c - 48).
Proof.
  intros [H1 H2]. unfold sample_decimal.
  apply N.leb_le in H1, H2. rewrite H1, H2. reflexivity.
Qed.

Lemma sample_digit_not_decimal_ascii c :
  (c < 128)%N -> sample_digit_not_decimal c = false.
Proof.
  intros H. unfold sample_digit_not_decimal.
  rewrite !orb_false_iff, !N.eqb_neq. lia.
Qed.

(** The entries of the database for the digits of those two scripts and
    the three superscripts; every other character is no digit in it. *)
Definition sample_unicode : unicode_db :=
  mkUnicode sample_decimal sample_digit_not_decimal
            sample_decimal_ascii eq_refl sample_digit_not_decimal_ascii.

End Text.

(** ** Clock *)

(** The fields of [datetime.now(timezone.utc)] the scheduler reads. *)
Record datetime : Type := mkDatetime {
  hour : Z;
  minute : Z
}.

(** [now_utc.strftime("%H:%M")]: both fields as two-digit numbers. *)
Definition strftime_HM (d : datetime) : string :=
  Text.fmt_02d (hour d) ++ ":" ++ Text.fmt_02d (minute d).

(** The UTC wall-clock reading at [t] seconds after the epoch. *)
Definition datetime_of_seconds (t : Z) : datetime :=
  mkDatetime ((t / 3600) mod 24) ((t / 60) mod 60).

(** ** The [/subscribe_daily] handler *)

Module Handlers.
Import Store.

(** The answers of the handler, by the place in the code that sends them. *)
Inductive reply : Type :=
| UsageHint
| NeedOneColon
| MustBeNumbers
| OutOfRange
| DailyDone (t : string).

(** [cmd_subscribe_daily(msg)] with [msg.text], [msg.from_user.id] and
    [msg.chat.id]; [U] is the character database of the runtime.  The
    result is what the handler answered, or the exception that left it,
    and the database afterwards. *)
Definition cmd_subscribe_daily (U : Text.unicode_db) (text : option Text.str)
    (from_user chat : Z) (now : string) (db : DB) : (exn + reply) * DB :=
  let parts := Text.split (match text with Some s => s | None => [] end) in
  match parts with
  | _ :: time_str :: _ =>
      if negb (Text.count Text.colon time_str =? 1) then (inr NeedOneColon, db)
      else
        match Text.split_on Text.colon time_str with
        | [hh_str; mm_str] =>
            if negb (Text.isdigit U hh_str && Text.isdigit U mm_str)
            then (inr MustBeNumbers, db)
            else
              match Text.int U hh_str with
              | inl e => (inl e, db)
              | inr hh =>
                  match Text.int U mm_str with
                  | inl e => (inl e, db)
                  | inr mm =>
                      if negb ((0 <=? hh) && (hh <=? 23)
                               && (0 <=? mm) && (mm <=? 59))
                      then (inr OutOfRange, db)
                      else
                        let t := (Text.fmt_02d hh ++ ":" ++ Text.fmt_02d mm)%string in
                        match add_sub from_user chat "daily" (Some t) now db with
                        | inl e => (inl e, db)
                        | inr db' => (inr (DailyDone t), db')
                        end
                  end
              end
        | _ => (inl (Exception "ValueError"), db)
        end
  | _ => (inr UsageHint, db)
  end.

End Handlers.

(** ** The scheduler *)

Module Notifier.
Import Store.

(** [SELECT DISTINCT]: each value once, at its first occurrence. *)
Fixpoint distinct (l : list Z) : list Z :=
  match l with
  | [] => []
  | x :: l' => x :: filter (fun y => negb (y =? x)) (distinct l')
  end.

(** [SELECT DISTINCT chat_id FROM subs WHERE kind='hourly']. *)
Definition select_distinct_hourly (db : DB) : list Z :=
  distinct (map chat_id (filter (fun r => (kind r =? "hourly")%string) (rows db))).

(** [daily_time=?] on a nullable column: NULL matches nothing. *)
Definition daily_time_is (t : string) (r : Row) : bool :=
  match daily_time r with
  | Some s => (s =? t)%string
  | None => false
  end.

(** [SELECT DISTINCT chat_id FROM subs WHERE kind='daily' AND daily_time=?]. *)
Definition select_distinct_daily (t : string) (db : DB) : list Z :=
  distinct (map chat_id
    (filter (fun r => (kind r =? "daily")%string && daily_time_is t r) (rows db))).

(** The chats the iteration started at [now] queries for each cadence. *)
Definition due_hourly (now : datetime) (db : DB) : list Z :=
  if minute now =? 0 then select_distinct_hourly db else [].

Definition due_daily (now : datetime) (db : DB) : list Z :=
  select_distinct_daily (strftime_HM now) db.

(** What an iteration does to the outside, in order. *)
Inductive event : Type :=
| ClockRead (t : Z)
| SendMessage (chat : Z) (text : string) (raised : option exn)
| Printed (e : exn)
| Slept (secs : Z).

(** The three places of an iteration that touch the database. *)
Inductive db_step : Type := Connect | SelectHourly | SelectDaily.

(** A computation that leaves a trace and returns or raises. *)
Definition M (A : Type) : Type := list event * (exn + A).

Definition ret {A} (a : A) : M A := ([], inr a).

Definition raise {A} (e : exn) : M A := ([], inl e).

Definition bind {A B} (m : M A) (f : A -> M B) : M B :=
  match m with
  | (tr, inl e) => (tr, inl e)
  | (tr, inr a) => let (tr', r) := f a in (tr ++ tr', r)
  end.

Definition emit (ev : event) : M unit := ([ev], inr tt).

Definition lift {A} (r : exn + A) : M A := ([], r).

Definition guard (e : option exn) : M unit :=
  match e with
  | Some x => raise x
  | None => ret tt
  end.

Notation "x <- m ;; k" := (bind m (fun x => k))
  (at level 61, m at next level, right associativity).
Notation "m ;;; k" := (bind m (fun _ => k))
  (at level 61, right associativity).

Section Loop.

Variable Rates : Type.

(** [fmt_rates], the rendering of a snapshot. *)
Variable fmt_rates : Rates -> string.

(** What the outside does during one iteration: how long the body runs,
    from reading the clock to entering the sleep, in seconds; what
    [get_rates()] gives; whether a database step raises; whether
    [bot.send_message] to a chat raises. *)
Record tick_env : Type := mkEnv {
  elapsed : N;
  get_rates : exn + Rates;
  db_error : db_step -> option exn;
  send_message : Z -> option exn
}.

(** [for row in rows: await bot.send_message(row[0], text)]. *)
Fixpoint send_all (env : tick_env) (text : string) (chats : list Z) : M unit :=
  match chats with
  | [] => ret tt
  | c :: cs =>
      match send_message env c with
      | None => emit (SendMessage c text None) ;;; send_all env text cs
      | Some e => ([SendMessage c text (Some e)], inl e)
      end
  end.

(** The body of the [try] of one iteration, after the clock was read. *)
Definition tick_body (env : tick_env) (now_utc : datetime) (db : DB) : M unit :=
  rates <- lift (get_rates env) ;;
  guard (db_error env Connect) ;;;
  (if minute now_utc =? 0 then
     guard (db_error env SelectHourly) ;;;
     send_all env (fmt_rates rates) (select_distinct_hourly db)
   else ret tt) ;;;
  guard (db_error env SelectDaily) ;;;
  send_all env (fmt_rates rates) (select_distinct_daily (strftime_HM now_utc) db).

(** The scheduler's view of the world between iterations. *)
Record state : Type := mkState {
  clock : Z;
  db : DB
}.

(** [notifier_loop] over the iterations whose environments are [envs]:
    the trace, the exception that ended the task if one did, and the state
    reached.  [except Exception] prints and goes on; anything else leaves
    the loop once the [finally] has slept. *)
Fixpoint notifier_loop (envs : list tick_env) (st : state)
    : list event * option exn * state :=
  match envs with
  | [] => ([], None, st)
  | env :: rest =>
      let (tr, res) := tick_body env (datetime_of_seconds (clock st)) (db st) in
      let st' := mkState (clock st + Z.of_N (elapsed env) + 60) (db st) in
      match res with
      | inr _ =>
          let '(tr', stop, st'') := notifier_loop rest st' in
          (ClockRead (clock st) :: tr ++ Slept 60 :: tr', stop, st'')
      | inl (Exception what) =>
          let '(tr', stop, st'') := notifier_loop rest st' in
          (ClockRead (clock st) :: tr ++ Printed (Exception what) :: Slept 60 :: tr',
           stop, st'')
      | inl CancelledError =>
          (ClockRead (clock st) :: tr ++ [Slept 60], Some CancelledError, st')
      end
  end.

End Loop.

(** The chats of the delivery attempts in a trace, in order. *)
Fixpoint attempts (tr : list event) : list Z :=
  match tr with
  | [] => []
  | SendMessage c _ _ :: tr' => c :: attempts tr'
  | _ :: tr' => attempts tr'
  end.

(** The chats a trace delivered to, in order. *)
Fixpoint delivered (tr : list event) : list Z :=
  match tr with
  | [] => []
  | SendMessage c _ None :: tr' => c :: delivered tr'
  | _ :: tr' => delivered tr'
  end.

(** The clock readings of a trace: the instants the iterations started. *)
Fixpoint clock_reads (tr : list event) : list Z :=
  match tr with
  | [] => []
  | ClockRead t :: tr' => t :: clock_reads tr'
  | _ :: tr' => clock_reads tr'
  end.

End Notifier.

(** ** Vocabulary of the properties *)

Module Props.
Import Store Notifier.

(** The subscriptions of kind [k] that user [u] owns. *)
Definition subs_of (u : Z) (k : string) (db : DB) : list Row :=
  filter (owned_kind u k) (rows db).

(** Every row satisfies the table's [CHECK] constraint. *)
Definition table_checked (db : DB) : Prop :=
  forall r, In r (rows db) -> check_kind (kind r) = true.

(** No user owns two hourly or two daily subscriptions. *)
Definition at_most_one_per_kind (db : DB) : Prop :=
  forall u,
    (List.length (subs_of u "hourly" db) <= 1)%nat /\
    (List.length (subs_of u "daily" db) <= 1)%nat.

(** A call of the command interface into the store. *)
Inductive op : Type :=
| Upsert (u c : Z) (k : string) (dt : option string) (now : string)
| RemoveAll (u : Z).

(** The database after a call; a call that raises commits nothing. *)
Definition apply_op (db : DB) (o : op) : DB :=
  match o with
  | Upsert u c k dt now =>
      match add_sub u c k dt now db with
      | inr db' => db'
      | inl _ => db
      end
  | RemoveAll u => snd (remove_all_subs u db)
  end.

Definition run (ops : list op) (db : DB) : DB := fold_left apply_op ops db.

(** A table reached by subscribing user 1 of chat 100 to both cadences. *)
Definition both_cadences_db : DB :=
  run [Upsert 1 100 "hourly" None "2024-05-01T08:00:00+00:00";
       Upsert 1 100 "daily" (Some "09:00") "2024-05-01T08:01:00+00:00"]
      init_db.

Definition all_of_kind (k : string) (l : list Row) : Prop :=
  forall x, In x l -> kind x = k.

Definition is_kind (k : string) (e : string * option string) : bool :=
  (fst e =? k)%string.

(** In a listing, every entry of kind [k1] comes before every entry of
    kind [k2]. *)
Definition kind_before (k1 k2 : string) (l : list (string * option string)) : Prop :=
  forall i j e1 e2,
    nth_error l i = Some e1 -> nth_error l j = Some e2 ->
    fst e1 = k1 -> fst e2 = k2 -> (i < j)%nat.

(** The chats of a list up to and including the first one for which
    [fails] holds. *)
Fixpoint upto_first_failure (fails : Z -> bool) (l : list Z) : list Z :=
  match l with
  | [] => []
  | c :: l' => c :: (if fails c then [] else upto_first_failure fails l')
  end.

(** The event is a delivery attempt. *)
Definition is_send (ev : event) : Prop :=
  match ev with SendMessage _ _ _ => True | _ => False end.

Definition is_some {A} (o : option A) : bool :=
  match o with Some _ => true | None => false end.

(** Successive readings are exactly [p] seconds apart. *)
Fixpoint fixed_period (p : Z) (reads : list Z) : Prop :=
  match reads with
  | a :: ((b :: _) as rest) => b = a + p /\ fixed_period p rest
  | _ => True
  end.

(** The minute of the epoch an instant falls in. *)
Definition minute_index (t : Z) : Z := t / 60.

Section Env.
Variable Rates : Type.

(** Nothing in the environment of an iteration cancels the task. *)
Definition not_cancelled (env : tick_env Rates) : Prop :=
  get_rates env <> inl CancelledError /\
  (forall s, db_error env s <> Some CancelledError) /\
  (forall c, send_message env c <> Some CancelledError).

(** No database step of the iteration raises. *)
Definition db_ok (env : tick_env Rates) : Prop :=
  forall s, db_error env s = None.

End Env.

(** The instants at which the iterations start when the first one starts
    at [t] and their bodies take [ds] seconds: each wait of 60 seconds
    begins when the body before it is over. *)
Fixpoint tick_starts (ds : list N) (t : Z) : list Z :=
  match ds with
  | [] => []
  | d :: ds' => t :: tick_starts ds' (t + Z.of_N d + 60)
  end.

(** *** Concrete runs *)

(** Three users with a daily subscription at 09:00, each in a chat of
    their own. *)
Definition three_daily_db : DB :=
  run [Upsert 1 101 "daily" (Some "09:00") "2024-05-01T08:00:00+00:00";
       Upsert 2 102 "daily" (Some "09:00") "2024-05-01T08:01:00+00:00";
       Upsert 3 103 "daily" (Some "09:00") "2024-05-01T08:02:00+00:00"]
      init_db.

(** Two users with a daily subscription at 09:00 in the same group chat. *)
Definition shared_chat_db : DB :=
  run [Upsert 1 500 "daily" (Some "09:00") "2024-05-01T08:00:00+00:00";
       Upsert 2 500 "daily" (Some "09:00") "2024-05-01T08:01:00+00:00"]
      init_db.

(** One user with a daily subscription at 00:01. *)
Definition one_past_midnight_db : DB :=
  run [Upsert 1 100 "daily" (Some "00:01") "2024-05-01T08:00:00+00:00"] init_db.

Definition nine_oclock : datetime := mkDatetime 9 0.

(** A snapshot type and a rendering to run the scheduler with. *)
Definition render (_ : unit) : string := "rates".

Definition blocked : exn := Exception "Forbidden: bot was blocked by the user".

(** Everything works, except that chat 101 has blocked the bot. *)
Definition env_blocked_101 : tick_env unit :=
  mkEnv 1 (inr tt) (fun _ => None)
        (fun c => if c =? 101 then Some blocked else None).

(** The rate source does not answer. *)
Definition env_fetch_fails : tick_env unit :=
  mkEnv 10 (inl (Exception "ConnectTimeout")) (fun _ => None) (fun _ => None).

(** Everything works and the body takes [d] seconds. *)
Definition env_ok (d : N) : tick_env unit :=
  mkEnv d (inr tt) (fun _ => None) (fun _ => None).

(** The argument the handler reads: the second word of the message. *)
Definition time_arg (text : option Text.str) : option Text.str :=
  match Text.split (match text with Some s => s | None => [] end) with
  | _ :: a :: _ => Some a
  | _ => None
  end.

(** The argument of [/subscribe_daily] is a time of day: one colon between
    two non-empty runs of decimal digits, of whatever script, whose values
    are an hour [hh] and a minute [mm]. *)
Definition valid_time (U : Text.unicode_db) (arg : Text.str) (hh mm : Z) : Prop :=
  exists hs ms,
    arg = hs ++ Text.colon :: ms /\
    hs <> [] /\ ms <> [] /\
    Text.digits_value U hs 0 = Some hh /\ Text.digits_value U ms 0 = Some mm /\
    0 <= hh <= 23 /\ 0 <= mm <= 59.

End Props.

(** ** The other commands and the callbacks that reach the store *)

Module Commands.
Import Store.

(** The two answers of [/unsubscribe]. *)
Inductive unsub_reply : Type :=
| AllRemoved
| NothingToRemove.

(** [cmd_unsubscribe(msg)] with [msg.from_user.id]: the answer is chosen
    by the truth value of the count [remove_all_subs] returned. *)
Definition cmd_unsubscribe (from_user : Z) (db : DB) : unsub_reply * DB :=
  let (removed, db') := remove_all_subs from_user db in
  (if removed =? 0 then NothingToRemove else AllRemoved, db').

(** The lines [/mysubs] joins into its answer.  A daily line prints the
    [daily_time] field of the entry, [None] included. *)
Inductive line : Type :=
| Heading
| HourlyLine
| DailyLine (t : option string)
| CancelHint.

Inductive mysubs_reply : Type :=
| NoActive
| Listing (lines : list line).

Definition sub_line (s : string * option string) : line :=
  if (fst s =? "hourly")%string then HourlyLine else DailyLine (snd s).

(** [cmd_mysubs(msg)] with [msg.from_user.id]. *)
Definition cmd_mysubs (from_user : Z) (db : DB) : mysubs_reply :=
  match list_subs from_user db with
  | [] => NoActive
  | subs => Listing (Heading :: map sub_line subs ++ [CancelHint])
  end.

(** [s.split(c, n)] for a one-character separator: at most [n] cuts, at
    the first occurrences of [c]; the last piece keeps the others. *)
Fixpoint split_max (c : ascii) (n : nat) (s : string) {struct s} : list string :=
  match n with
  | O => [s]
  | S n' =>
      match s with
      | EmptyString => [EmptyString]
      | String a s' =>
          if Ascii.eqb a c then EmptyString :: split_max c n' s'
          else match split_max c n s' with
               | [] => [String a EmptyString]
               | p :: ps => String a p :: ps
               end
      end
  end.

(** [cb_sub_hourly(call)] with [call.from_user.id] and
    [call.message.chat.id]. *)
Definition cb_sub_hourly (from_user chat : Z) (now : string) (db : DB)
    : exn + DB :=
  add_sub from_user chat "hourly" None now db.

(** [cb_sub_daily(call)] with [call.data]: the time is the third piece of
    [call.data.split(":", 2)], stored as it is; the result carries the
    time the alert announces. *)
Definition cb_sub_daily (data : string) (from_user chat : Z) (now : string)
    (db : DB) : exn + (string * DB) :=
  match nth_error (split_max ":" 2 data) 2 with
  | None => inl (Exception "IndexError")
  | Some time_str =>
      match add_sub from_user chat "daily" (Some time_str) now db with
      | inl e => inl e
      | inr db' => inr (time_str, db')
      end
  end.

(** [cb_unsub_all(call)] with [call.from_user.id]. *)
Definition cb_unsub_all (from_user : Z) (db : DB) : DB :=
  snd (remove_all_subs from_user db).

(** The callback handlers, in the order the module registers them. *)
Inductive callback : Type :=
| CbRefresh
| CbSubMenu
| CbSubHourly
| CbSubDaily
| CbUnsubAll.

(** The handler a callback query with data [data] reaches: the first one
    in registration order whose filter on [F.data] accepts it. *)
Definition route (data : string) : option callback :=
  if (data =? "refresh")%string then Some CbRefresh
  else if (data =? "sub:menu")%string then Some CbSubMenu
  else if (data =? "sub:hourly")%string then Some CbSubHourly
  else if String.prefix "sub:daily:" data then Some CbSubDaily
  else if (data =? "unsub:all")%string then Some CbUnsubAll
  else None.

(** The [callback_data] of the buttons of [refresh_keyboard()], row by
    row; the labels are left out. *)
Definition refresh_keyboard : list (list string) :=
  [["refresh"]; ["sub:menu"]].

(** The [callback_data] of the buttons of [subscribe_menu()], row by row;
    the labels are left out. *)
Definition subscribe_menu : list (list string) :=
  [["sub:hourly"];
   ["sub:daily:09:00"];
   ["sub:daily:12:00"];
   ["sub:daily:18:00"];
   ["unsub:all"]].

End Commands.

(** ** Vocabulary of the further properties *)

Module MoreProps.
Import Store Notifier Props.

(** Every daily row carries a time that is not empty. *)
Definition daily_rows_timed (db : DB) : Prop :=
  forall r, In r (rows db) -> kind r = "daily" -> truthy (daily_time r) = true.

(** The ids grow along the table and none exceeds the counter. *)
Definition ids_ordered (db : DB) : Prop :=
  StronglySorted Z.lt (map id (rows db)) /\
  Forall (fun i => i <= seq db) (map id (rows db)).

(** Every character of the text is below U+0080. *)
Definition is_ascii (s : Text.str) : bool :=
  forallb (fun c => (c <? 128)%N) s.

(** A clock reading of a real day: an hour and a minute in range. *)
Definition wall_clock (d : datetime) : Prop :=
  0 <= hour d <= 23 /\ 0 <= minute d <= 59.

End MoreProps.

Unset Implicit Arguments.

(** * Properties of the store *)

Module StoreFacts.
Import Store Props.

Lemma filter_length_le {A} (p : A -> bool) (l : list A) :
  (List.length (filter p l) <= List.length l)%nat.
Proof.
  induction l as [|a l IH]; simpl; [lia|].
  destruct (p a); simpl; lia.
Qed.

Lemma filter_filter {A} (p q : A -> bool) (l : list A) :
  filter p (filter q l) = filter (fun x => q x && p x) l.
Proof.
  induction l as [|a l IH]; simpl; [reflexivity|].
  destruct (q a); simpl; [destruct (p a)|]; rewrite ?IH; reflexivity.
Qed.

Lemma filter_none {A} (p : A -> bool) (l : list A) :
  (forall x, In x l -> p x = false) -> filter p l = [].
Proof.
  induction l as [|a l IH]; simpl; intros H; [reflexivity|].
  rewrite (H a) by auto. apply IH. auto.
Qed.

Lemma filter_all {A} (p : A -> bool) (l : list A) :
  (forall x, In x l -> p x = true) -> filter p l = l.
Proof.
  induction l as [|a l IH]; simpl; intros H; [reflexivity|].
  rewrite (H a) by auto. f_equal. apply IH. auto.
Qed.

(** Deleting the rows that satisfy [p] leaves none that does. *)
Lemma filter_delete_same (p : Row -> bool) (t : list Row) :
  filter p (delete_where p t) = [].
Proof.
  unfold delete_where. rewrite filter_filter.
  apply filter_none. intros x _. destruct (p x); reflexivity.
Qed.

(** A selection after a deletion is a part of the selection before. *)
Lemma filter_delete_length (p q : Row -> bool) (t : list Row) :
  (List.length (filter q (delete_where p t)) <= List.length (filter q t))%nat.
Proof.
  induction t as [|a t IH]; simpl; [lia|].
  destruct (p a), (q a) eqn:Q; simpl; rewrite ?Q; simpl; lia.
Qed.

(** A deletion removes as many rows as the condition selects. *)
Lemma delete_where_length (p : Row -> bool) (t : list Row) :
  List.length t
  = (List.length (filter p t) + List.length (delete_where p t))%nat.
Proof.
  unfold delete_where. induction t as [|x t IH]; [reflexivity|].
  cbn [filter]. destruct (p x); cbn [negb List.length]; lia.
Qed.

Lemma owned_kind_spec u k r :
  owned_kind u k r = true <-> user_id r = u /\ kind r = k.
Proof.
  unfold owned_kind. rewrite andb_true_iff, Z.eqb_eq, String.eqb_eq. tauto.
Qed.

Lemma check_kind_spec k :
  check_kind k = true <-> k = "hourly" \/ k = "daily".
Proof.
  unfold check_kind. rewrite orb_true_iff, !String.eqb_eq. tauto.
Qed.

(** What a successful [add_sub] commits: the rows of the same user and kind
    are gone, one row is appended, and its id is the new counter. *)
Lemma add_sub_inr u c k dt now db db' :
  add_sub u c k dt now db = inr db' ->
  (k = "hourly" \/ k = "daily") /\
  db' = mkDB (delete_where (owned_kind u k) (rows db)
              ++ [mkRow (next_id db) u c k dt now]) (next_id db).
Proof.
  unfold add_sub.
  destruct ((k =? "daily")%string && negb (truthy dt)); [discriminate|].
  destruct (check_kind k) eqn:Hc; [|discriminate].
  apply check_kind_spec in Hc.
  intros H. split; [exact Hc|].
  destruct Hc as [-> | ->]; simpl in H; injection H as <-; reflexivity.
Qed.

(** An hourly [add_sub] never raises. *)
Lemma add_sub_hourly u c dt now db :
  add_sub u c "hourly" dt now db =
  inr (mkDB (delete_where (owned_kind u "hourly") (rows db)
             ++ [mkRow (next_id db) u c "hourly" dt now]) (next_id db)).
Proof. reflexivity. Qed.

(** A daily [add_sub] with a non-empty time never raises. *)
Lemma add_sub_daily u c t now db :
  t <> EmptyString ->
  add_sub u c "daily" (Some t) now db =
  inr (mkDB (delete_where (owned_kind u "daily") (rows db)
             ++ [mkRow (next_id db) u c "daily" (Some t) now]) (next_id db)).
Proof.
  intros Ht. unfold add_sub. simpl.
  destruct t; [congruence|reflexivity].
Qed.

(** After a successful [add_sub] the user owns exactly the new row of that
    kind. *)
Lemma add_sub_replaces u c k dt now db db' :
  add_sub u c k dt now db = inr db' ->
  subs_of u k db' = [mkRow (next_id db) u c k dt now].
Proof.
  intros H. apply add_sub_inr in H as [_ ->].
  unfold subs_of. simpl. rewrite filter_app, filter_delete_same. simpl.
  unfold owned_kind at 1. simpl. rewrite Z.eqb_refl, String.eqb_refl.
  reflexivity.
Qed.

(** A successful [add_sub] leaves the rows of every other user or kind as
    they were. *)
Lemma add_sub_others u c k dt now db db' u' k' :
  add_sub u c k dt now db = inr db' ->
  (u', k') <> (u, k) ->
  subs_of u' k' db' = subs_of u' k' db.
Proof.
  intros H Hne. apply add_sub_inr in H as [_ ->].
  unfold subs_of. simpl. rewrite filter_app. simpl.
  assert (Hnew : owned_kind u' k' (mkRow (next_id db) u c k dt now) = false).
  { destruct (owned_kind u' k' _) eqn:E; [|reflexivity].
    apply owned_kind_spec in E. simpl in E. destruct E; subst. congruence. }
  rewrite Hnew, app_nil_r.
  unfold delete_where. rewrite filter_filter.
  apply filter_ext. intros r.
  destruct (owned_kind u k r) eqn:E1; simpl; [|reflexivity].
  destruct (owned_kind u' k' r) eqn:E2; [|reflexivity].
  apply owned_kind_spec in E1, E2. destruct E1, E2. subst. congruence.
Qed.

(** Apart from the rows of that user and kind, a successful [add_sub]
    leaves the table as it was. *)
Lemma add_sub_keeps_rest u c k dt now db db' :
  add_sub u c k dt now db = inr db' ->
  delete_where (owned_kind u k) (rows db')
  = delete_where (owned_kind u k) (rows db).
Proof.
  intros H. apply add_sub_inr in H as [_ ->]. simpl.
  unfold delete_where. rewrite filter_app, filter_filter. simpl.
  unfold owned_kind at 3. simpl. rewrite Z.eqb_refl, String.eqb_refl. simpl.
  rewrite app_nil_r. apply filter_ext. intros r.
  destruct (owned_kind u k r); reflexivity.
Qed.

Lemma remove_all_subs_none u k db :
  subs_of u k (snd (remove_all_subs u db)) = [].
Proof.
  unfold subs_of, remove_all_subs, delete_where. simpl.
  rewrite filter_filter. apply filter_none. intros r _.
  unfold owned, owned_kind. destruct (user_id r =? u); reflexivity.
Qed.

Lemma remove_all_subs_le u u' k db :
  (List.length (subs_of u' k (snd (remove_all_subs u db)))
   <= List.length (subs_of u' k db))%nat.
Proof. apply filter_delete_length. Qed.

(** Every call keeps the invariant. *)
Lemma apply_op_invariant db o :
  at_most_one_per_kind db -> at_most_one_per_kind (apply_op db o).
Proof.
  intros Hinv. destruct o as [u c k dt now | u]; simpl.
  - destruct (add_sub u c k dt now db) as [e | db'] eqn:H; [exact Hinv|].
    assert (Hk : forall u' k',
      (List.length (subs_of u' k' db) <= 1)%nat ->
      (List.length (subs_of u' k' db') <= 1)%nat).
    { intros u' k' Hle.
      destruct (Z.eq_dec u' u) as [-> | Hu];
        [destruct (string_dec k' k) as [-> | Hk]|].
      - rewrite (add_sub_replaces _ _ _ _ _ _ _ H). simpl. lia.
      - rewrite (add_sub_others _ _ _ _ _ _ _ u k' H) by congruence.
        exact Hle.
      - rewrite (add_sub_others _ _ _ _ _ _ _ u' k' H) by congruence.
        exact Hle. }
    intros u'. destruct (Hinv u'). split; apply Hk; assumption.
  - intros u'. destruct (Hinv u') as [H1 H2].
    split; (eapply Nat.le_trans; [apply remove_all_subs_le|assumption]).
Qed.

Lemma run_invariant ops : forall db,
  at_most_one_per_kind db -> at_most_one_per_kind (run ops db).
Proof.
  unfold run. induction ops as [|o ops IH]; simpl; intros db H; [exact H|].
  apply IH, apply_op_invariant, H.
Qed.

(** C8: starting from the empty table of [init_db], after any sequence of
    [add_sub] and [remove_all_subs] calls no user owns more than one hourly
    or more than one daily subscription; and some sequence of calls leaves a
    user with one of each at the same time. *)
Theorem at_most_one_per_kind_reachable :
  (forall ops, at_most_one_per_kind (run ops init_db)) /\
  (exists ops u h d,
     subs_of u "hourly" (run ops init_db) = [h] /\
     subs_of u "daily" (run ops init_db) = [d]).
Proof.
  split.
  - intros ops. apply run_invariant. intros u. simpl. lia.
  - exists [Upsert 1 100 "hourly" None "t1"; Upsert 1 100 "daily" (Some "09:00") "t2"].
    exists 1. eexists. eexists. split; reflexivity.
Qed.

(** [ORDER BY] rearranges and neither drops nor invents a row. *)
Lemma insert_by_kind_perm r l : Permutation (insert_by_kind r l) (r :: l).
Proof.
  induction l as [|x l IH]; simpl; [reflexivity|].
  destruct (kind x <=? kind r)%string; [|reflexivity].
  rewrite IH. apply perm_swap.
Qed.

Lemma fold_insert_perm l : forall acc,
  Permutation (fold_left (fun a r => insert_by_kind r a) l acc) (acc ++ l).
Proof.
  induction l as [|x l IH]; intros acc; simpl.
  - rewrite app_nil_r. reflexivity.
  - rewrite IH, insert_by_kind_perm. apply Permutation_middle.
Qed.

Lemma order_by_kind_perm l : Permutation (order_by_kind l) l.
Proof. apply (fold_insert_perm l []). Qed.

Lemma filter_perm {A} (p : A -> bool) (l l' : list A) :
  Permutation l l' -> Permutation (filter p l) (filter p l').
Proof.
  induction 1 as [|x l l' _ IH|x y l|l l' l'' _ IH1 _ IH2]; simpl.
  - constructor.
  - destruct (p x); [constructor|]; exact IH.
  - destruct (p x), (p y); try reflexivity. apply perm_swap.
  - exact (perm_trans IH1 IH2).
Qed.

Lemma filter_owned_kind u k (t : list Row) :
  filter (fun r => (kind r =? k)%string) (filter (owned u) t)
  = filter (owned_kind u k) t.
Proof. rewrite filter_filter. reflexivity. Qed.

Lemma filter_map_entry k (l : list Row) :
  filter (is_kind k) (map sub_entry l)
  = map sub_entry (filter (fun r => (kind r =? k)%string) l).
Proof.
  induction l as [|x l IH]; simpl; [reflexivity|].
  unfold is_kind at 1. simpl. destruct (kind x =? k)%string; simpl; rewrite IH; reflexivity.
Qed.

(** C4: whatever the table held, two hourly [add_sub] calls of one user, the
    first for chat [c] and the second for chat [c2], both succeed and leave
    that user with exactly one hourly row, the one of the second call, so
    bound to [c2]; [list_subs] shows exactly one hourly entry; and the rows
    that are not hourly rows of that user are the ones from before. *)
Theorem add_sub_twice_hourly : forall db u c c2 dt1 dt2 t1 t2,
  exists db1 db2 i,
    add_sub u c "hourly" dt1 t1 db = inr db1 /\
    add_sub u c2 "hourly" dt2 t2 db1 = inr db2 /\
    subs_of u "hourly" db2 = [mkRow i u c2 "hourly" dt2 t2] /\
    filter (is_kind "hourly") (list_subs u db2) = [("hourly", dt2)] /\
    delete_where (owned_kind u "hourly") (rows db2)
      = delete_where (owned_kind u "hourly") (rows db).
Proof.
  intros.
  destruct (add_sub u c "hourly" dt1 t1 db) as [e|db1] eqn:H1;
    [rewrite add_sub_hourly in H1; discriminate|].
  destruct (add_sub u c2 "hourly" dt2 t2 db1) as [e|db2] eqn:H2;
    [rewrite add_sub_hourly in H2; discriminate|].
  exists db1, db2, (next_id db1).
  pose proof (add_sub_replaces _ _ _ _ _ _ _ H2) as Hr.
  split; [reflexivity|]. split; [exact H2|].
  split; [|split].
  - exact Hr.
  - unfold list_subs.
    assert (Hp : Permutation
              (filter (is_kind "hourly")
                 (map sub_entry (order_by_kind (filter (owned u) (rows db2)))))
              (map sub_entry (subs_of u "hourly" db2))).
    { rewrite filter_map_entry. apply Permutation_map.
      unfold subs_of. rewrite <- (filter_owned_kind u "hourly").
      apply filter_perm, order_by_kind_perm. }
    rewrite Hr in Hp. simpl in Hp.
    apply Permutation_sym, Permutation_length_1_inv in Hp. exact Hp.
  - rewrite (add_sub_keeps_rest _ _ _ _ _ _ _ H2).
    apply (add_sub_keeps_rest _ _ _ _ _ _ _ H1).
Qed.

Lemma both_cadences_db_checked : table_checked both_cadences_db.
Proof.
  intros r Hin. simpl in Hin.
  destruct Hin as [<- | [<- | []]]; reflexivity.
Qed.

(** Under the [CHECK] constraint a user's rows are the hourly and the
    daily ones. *)
Lemma owned_length_by_kind u (t : list Row) :
  (forall r, In r t -> check_kind (kind r) = true) ->
  List.length (filter (owned u) t)
  = (List.length (filter (owned_kind u "hourly") t)
     + List.length (filter (owned_kind u "daily") t))%nat.
Proof.
  induction t as [|x t IH]; intros Hc; [reflexivity|].
  specialize (IH (fun r H => Hc r (or_intror H))).
  assert (Hx := Hc x (or_introl eq_refl)). apply check_kind_spec in Hx.
  simpl. unfold owned, owned_kind in *.
  destruct (user_id x =? u); simpl; [|exact IH].
  destruct Hx as [-> | ->]; simpl; lia.
Qed.

(** C9: [remove_all_subs] leaves exactly the rows of the other users, and
    the number it returns is the number of rows that went away; that number
    is 0, and the database is the same, when the user owned no row; and it
    is 2, with neither kind left, when the user owned one hourly and one
    daily row. *)
Theorem remove_all_subs_count : forall u db,
  let n := fst (remove_all_subs u db) in
  let db' := snd (remove_all_subs u db) in
  (forall r, In r (rows db') <-> In r (rows db) /\ user_id r <> u) /\
  Z.of_nat (List.length (rows db)) = n + Z.of_nat (List.length (rows db')) /\
  ((forall r, In r (rows db) -> user_id r <> u) -> n = 0 /\ db' = db) /\
  (table_checked db ->
   List.length (subs_of u "hourly" db) = 1%nat ->
   List.length (subs_of u "daily" db) = 1%nat ->
   n = 2 /\ subs_of u "hourly" db' = [] /\ subs_of u "daily" db' = []).
Proof.
  intros u db. cbv zeta. unfold remove_all_subs. simpl.
  split; [|split; [|split]].
  - intros r. unfold delete_where. rewrite filter_In. unfold owned.
    rewrite negb_true_iff, Z.eqb_neq. tauto.
  - rewrite (delete_where_length (owned u) (rows db)). lia.
  - intros Hno.
    assert (Hf : forall r, In r (rows db) -> owned u r = false).
    { intros r Hin. unfold owned. apply Z.eqb_neq, Hno, Hin. }
    split.
    + rewrite (filter_none _ _ Hf). reflexivity.
    + unfold delete_where. rewrite filter_all.
      * destruct db; reflexivity.
      * intros r Hin. rewrite (Hf r Hin). reflexivity.
  - intros Hc Hh Hd. split; [|split].
    + rewrite (owned_length_by_kind u (rows db) Hc).
      unfold subs_of in Hh, Hd. rewrite Hh, Hd. reflexivity.
    + apply (remove_all_subs_none u "hourly" db).
    + apply (remove_all_subs_none u "daily" db).
Qed.

(** The same at [both_cadences_db]: user 1 owns one row of each kind and
    loses both, user 7 owns none. *)
Lemma remove_all_subs_count_example :
  fst (remove_all_subs 1 both_cadences_db) = 2 /\
  fst (remove_all_subs 7 both_cadences_db) = 0.
Proof.
  split.
  - apply (remove_all_subs_count 1 both_cadences_db).
    + exact both_cadences_db_checked.
    + reflexivity.
    + reflexivity.
  - apply (remove_all_subs_count 7 both_cadences_db).
    intros r Hin. simpl in Hin.
    destruct Hin as [<- | [<- | []]]; simpl; lia.
Defined.

Lemma insert_daily r D H :
  kind r = "daily" -> all_of_kind "daily" D -> all_of_kind "hourly" H ->
  insert_by_kind r (D ++ H) = D ++ r :: H.
Proof.
  intros Hr HD HH. induction D as [|x D IH]; simpl.
  - destruct H as [|y H]; [reflexivity|]. simpl.
    rewrite Hr, (HH y (or_introl eq_refl)). reflexivity.
  - rewrite IH by (intros z Hz; apply HD; right; exact Hz).
    rewrite Hr, (HD x (or_introl eq_refl)). reflexivity.
Qed.

Lemma insert_hourly r l :
  kind r = "hourly" -> (forall x, In x l -> check_kind (kind x) = true) ->
  insert_by_kind r l = l ++ [r].
Proof.
  intros Hr Hc. induction l as [|x l IH]; simpl; [reflexivity|].
  assert (Hx := Hc x (or_introl eq_refl)). apply check_kind_spec in Hx.
  rewrite IH by (intros z Hz; apply Hc; right; exact Hz).
  rewrite Hr. destruct Hx as [-> | ->]; reflexivity.
Qed.

Lemma all_of_kind_checked k l :
  check_kind k = true -> all_of_kind k l ->
  forall x, In x l -> check_kind (kind x) = true.
Proof. intros Hk H x Hx. rewrite (H x Hx). exact Hk. Qed.

(** Under the [CHECK] constraint [ORDER BY kind] puts the daily rows first
    and the hourly rows after them, each group in rowid order. *)
Lemma fold_insert_checked l : forall D H,
  all_of_kind "daily" D -> all_of_kind "hourly" H ->
  (forall x, In x l -> check_kind (kind x) = true) ->
  fold_left (fun a r => insert_by_kind r a) l (D ++ H)
  = (D ++ filter (fun r => (kind r =? "daily")%string) l)
    ++ (H ++ filter (fun r => (kind r =? "hourly")%string) l).
Proof.
  induction l as [|x l IH]; intros D H HD HH Hc; simpl.
  - rewrite !app_nil_r. reflexivity.
  - assert (Hx := Hc x (or_introl eq_refl)). apply check_kind_spec in Hx.
    assert (Hc' : forall z, In z l -> check_kind (kind z) = true)
      by (intros z Hz; apply Hc; right; exact Hz).
    destruct Hx as [Hx | Hx]; rewrite Hx; simpl.
    + rewrite insert_hourly; [|exact Hx|].
      * rewrite <- app_assoc. rewrite IH; [|exact HD| |exact Hc'].
        -- rewrite <- !app_assoc. reflexivity.
        -- intros z Hz. apply in_app_or in Hz as [Hz | [<- | []]]; auto.
      * intros z Hz. apply in_app_or in Hz as [Hz | Hz].
        -- rewrite (HD z Hz). reflexivity.
        -- rewrite (HH z Hz). reflexivity.
    + rewrite insert_daily; [|exact Hx|exact HD|exact HH].
      change (D ++ x :: H) with (D ++ [x] ++ H). rewrite app_assoc.
      rewrite IH; [|  |exact HH|exact Hc'].
      * rewrite <- !app_assoc. reflexivity.
      * intros z Hz. apply in_app_or in Hz as [Hz | [<- | []]]; auto.
Qed.

Lemma order_by_kind_checked l :
  (forall x, In x l -> check_kind (kind x) = true) ->
  order_by_kind l
  = filter (fun r => (kind r =? "daily")%string) l
    ++ filter (fun r => (kind r =? "hourly")%string) l.
Proof.
  intros Hc. unfold order_by_kind.
  apply (fold_insert_checked l [] []); [intros x []|intros x []|exact Hc].
Qed.

Lemma sub_entry_kind k (l : list Row) e :
  In e (map sub_entry (filter (fun r => (kind r =? k)%string) l)) -> fst e = k.
Proof.
  intros H. apply in_map_iff in H as (r & <- & Hr).
  apply filter_In in Hr as [_ Hr]. apply String.eqb_eq in Hr. exact Hr.
Qed.

(** C2, as the code has it: under the table's [CHECK] constraint
    [list_subs] returns the entries of all the user's rows, the daily ones
    first and the hourly ones after them; every daily entry comes before
    every hourly entry; and the listing depends on the rows only, so two
    calls with no write in between return the same. *)
Theorem list_subs_daily_before_hourly : forall u db,
  table_checked db ->
  list_subs u db
    = map sub_entry (subs_of u "daily" db) ++ map sub_entry (subs_of u "hourly" db) /\
  kind_before "daily" "hourly" (list_subs u db) /\
  (forall db', rows db' = rows db -> list_subs u db' = list_subs u db).
Proof.
  intros u db Hc.
  assert (E : list_subs u db
    = map sub_entry (subs_of u "daily" db) ++ map sub_entry (subs_of u "hourly" db)).
  { unfold list_subs, subs_of. rewrite order_by_kind_checked.
    - rewrite map_app, !filter_owned_kind. reflexivity.
    - intros x Hx. apply filter_In in Hx as [Hx _]. apply Hc, Hx. }
  split; [exact E|split].
  - rewrite E. unfold subs_of. rewrite <- !filter_owned_kind.
    set (A := map sub_entry (filter _ (filter (owned u) (rows db)))).
    set (B := map sub_entry (filter _ (filter (owned u) (rows db)))).
    intros i j e1 e2 Hi Hj H1 H2.
    destruct (Nat.lt_ge_cases i (List.length A)) as [Hlt | Hge].
    + destruct (Nat.lt_ge_cases j (List.length A)) as [Hlt' | Hge']; [|lia].
      rewrite nth_error_app1 in Hj by exact Hlt'.
      apply nth_error_In, sub_entry_kind in Hj. congruence.
    + rewrite nth_error_app2 in Hi by exact Hge.
      apply nth_error_In, sub_entry_kind in Hi. congruence.
  - intros db' Hr. unfold list_subs. rewrite Hr. reflexivity.
Qed.

(** At [both_cadences_db] the listing of user 1 is the daily entry, then
    the hourly one. *)
Lemma list_subs_daily_before_hourly_example :
  table_checked both_cadences_db /\
  list_subs 1 both_cadences_db = [("daily", Some "09:00"); ("hourly", None)].
Proof.
  split; [exact both_cadences_db_checked|].
  destruct (list_subs_daily_before_hourly 1 both_cadences_db
              both_cadences_db_checked) as [E _].
  rewrite E. reflexivity.
Defined.

(** C2, as the specification words it, fails: user 1 of
    [both_cadences_db] owns one subscription of each kind, and the listing
    has the hourly entry at index 1, after the daily entry at index 0. *)
Lemma list_subs_hourly_not_first :
  at_most_one_per_kind both_cadences_db /\
  nth_error (list_subs 1 both_cadences_db) 0 = Some ("daily", Some "09:00") /\
  nth_error (list_subs 1 both_cadences_db) 1 = Some ("hourly", None) /\
  ~ kind_before "hourly" "daily" (list_subs 1 both_cadences_db).
Proof.
  split; [apply run_invariant; intros u; simpl; lia|].
  split; [reflexivity|]. split; [reflexivity|].
  intros H.
  specialize (H 1%nat 0%nat ("hourly", None) ("daily", Some "09:00")
                eq_refl eq_refl eq_refl eq_refl).
  lia.
Qed.

End StoreFacts.

(** * Properties of the scheduler *)

Module NotifierFacts.
Import Store Notifier Props.

(** ** The queries *)

Lemma distinct_In c l : In c (distinct l) <-> In c l.
Proof.
  induction l as [|x l IH]; simpl; [tauto|].
  rewrite filter_In, IH, negb_true_iff, Z.eqb_neq.
  destruct (Z.eq_dec x c); intuition congruence.
Qed.

Lemma distinct_NoDup l : NoDup (distinct l).
Proof.
  induction l as [|x l IH]; simpl; constructor.
  - rewrite filter_In, negb_true_iff, Z.eqb_neq. tauto.
  - apply NoDup_filter, IH.
Qed.

Lemma select_distinct_hourly_In c db :
  In c (select_distinct_hourly db) <->
  exists r, In r (rows db) /\ kind r = "hourly" /\ chat_id r = c.
Proof.
  unfold select_distinct_hourly. rewrite distinct_In, in_map_iff.
  split.
  - intros (r & Hc & Hr). apply filter_In in Hr as [Hr Hk].
    apply String.eqb_eq in Hk. eauto.
  - intros (r & Hr & Hk & Hc). exists r. split; [exact Hc|].
    apply filter_In. split; [exact Hr|]. apply String.eqb_eq, Hk.
Qed.

Lemma daily_time_is_spec t r :
  daily_time_is t r = true <-> daily_time r = Some t.
Proof.
  unfold daily_time_is. destruct (daily_time r) as [s|].
  - rewrite String.eqb_eq. split; congruence.
  - split; discriminate.
Qed.

Lemma select_distinct_daily_In c t db :
  In c (select_distinct_daily t db) <->
  exists r, In r (rows db) /\ kind r = "daily" /\ daily_time r = Some t
            /\ chat_id r = c.
Proof.
  unfold select_distinct_daily. rewrite distinct_In, in_map_iff.
  split.
  - intros (r & Hc & Hr). apply filter_In in Hr as [Hr Hk].
    apply andb_true_iff in Hk as [Hk Ht].
    apply String.eqb_eq in Hk. apply daily_time_is_spec in Ht. eauto.
  - intros (r & Hr & Hk & Ht & Hc). exists r. split; [exact Hc|].
    apply filter_In. split; [exact Hr|]. apply andb_true_iff. split.
    + apply String.eqb_eq, Hk.
    + apply daily_time_is_spec, Ht.
Qed.

(** ** Traces *)

Lemma attempts_app tr1 tr2 : attempts (tr1 ++ tr2) = attempts tr1 ++ attempts tr2.
Proof.
  induction tr1 as [|ev tr1 IH]; simpl; [reflexivity|].
  destruct ev; simpl; rewrite IH; reflexivity.
Qed.

Lemma clock_reads_app tr1 tr2 :
  clock_reads (tr1 ++ tr2) = clock_reads tr1 ++ clock_reads tr2.
Proof.
  induction tr1 as [|ev tr1 IH]; simpl; [reflexivity|].
  destruct ev; simpl; rewrite IH; reflexivity.
Qed.

Lemma upto_first_failure_app fails l1 l2 :
  upto_first_failure fails (l1 ++ l2)
  = if existsb fails l1 then upto_first_failure fails l1
    else l1 ++ upto_first_failure fails l2.
Proof.
  induction l1 as [|c l1 IH]; simpl; [reflexivity|].
  destruct (fails c); simpl; [reflexivity|].
  rewrite IH. destruct (existsb fails l1); reflexivity.
Qed.

Section Tick.
Context {Rates : Type} (fmt_rates : Rates -> string).

#[local] Abbreviation fails env := (fun c => is_some (send_message env c)).

(** The sending loop tries the chats in order and stops at the first
    [send_message] that raises, with that exception. *)
Lemma send_all_spec (env : tick_env Rates) text chats :
  attempts (fst (send_all env text chats)) = upto_first_failure (fails env) chats /\
  (existsb (fails env) chats = false -> snd (send_all env text chats) = inr tt) /\
  (existsb (fails env) chats = true ->
   exists e c, In c chats /\ send_message env c = Some e /\
               snd (send_all env text chats) = inl e).
Proof.
  induction chats as [|c cs (IH1 & IH2 & IH3)]; simpl.
  - repeat split; [discriminate].
  - destruct (send_message env c) as [e|] eqn:Hs; simpl.
    + split; [reflexivity|]. split; [discriminate|].
      intros _. exists e, c. auto.
    + unfold bind, emit. destruct (send_all env text cs) as [tr r]. simpl in *.
      split; [rewrite IH1; reflexivity|]. split; [exact IH2|].
      intros H. destruct (IH3 H) as (e & c' & Hin & Hc & Hr). exists e, c'. auto.
Qed.

Lemma send_all_ok (env : tick_env Rates) text chats :
  (forall c, In c chats -> send_message env c = None) ->
  send_all env text chats = (map (fun c => SendMessage c text None) chats, inr tt).
Proof.
  induction chats as [|c cs IH]; intros H; simpl; [reflexivity|].
  rewrite (H c) by (left; reflexivity). unfold bind, emit.
  rewrite IH by (intros x Hx; apply H; right; exact Hx). reflexivity.
Qed.

(** The body of an iteration whose fetch and database steps succeed: the
    hourly chats are tried when the minute is 0, then the daily chats,
    unless a [send_message] raised before. *)
Lemma tick_body_sends (env : tick_env Rates) now db rates :
  get_rates env = inr rates -> db_ok env ->
  tick_body fmt_rates env now db
  = let (tr1, r1) := send_all env (fmt_rates rates) (due_hourly now db) in
    match r1 with
    | inl e => (tr1, inl e)
    | inr _ =>
        let (tr2, r2) := send_all env (fmt_rates rates) (due_daily now db) in
        (tr1 ++ tr2, r2)
    end.
Proof.
  intros Hf Hdb. unfold tick_body, due_hourly, due_daily.
  rewrite Hf, !Hdb. unfold bind, lift, guard, ret. simpl.
  destruct (minute now =? 0); simpl.
  - destruct (send_all env (fmt_rates rates) (select_distinct_hourly db))
      as [tr1 [e|[]]]; simpl; [reflexivity|].
    destruct (send_all env (fmt_rates rates) _) as [tr2 r2]. reflexivity.
  - destruct (send_all env (fmt_rates rates) _) as [tr2 r2]. reflexivity.
Qed.

(** An exception that leaves the body of an iteration was raised by the
    fetch, by a database step or by a [send_message]. *)
Lemma tick_body_raises (env : tick_env Rates) now db e :
  snd (tick_body fmt_rates env now db) = inl e ->
  get_rates env = inl e \/
  (exists s, db_error env s = Some e) \/
  (exists c, send_message env c = Some e).
Proof.
  unfold tick_body, bind, lift, guard, ret, raise.
  destruct (get_rates env) as [e0|rates]; simpl; [intros [= ->]; auto|].
  destruct (db_error env Connect) as [e1|] eqn:H1; simpl;
    [intros [= ->]; eauto|].
  assert (Hsend : forall text chats tr,
            send_all env text chats = (tr, inl e) ->
            exists c, send_message env c = Some e).
  { intros text chats tr H.
    destruct (send_all_spec env text chats) as (_ & Hok & Hbad).
    destruct (existsb (fails env) chats).
    - destruct (Hbad eq_refl) as (e' & c & _ & Hc & Hr).
      rewrite H in Hr. simpl in Hr. injection Hr as ->. eauto.
    - rewrite H in Hok. simpl in Hok. discriminate (Hok eq_refl). }
  destruct (minute now =? 0); simpl.
  - destruct (db_error env SelectHourly) as [e2|] eqn:H2; simpl;
      [intros [= ->]; eauto|].
    destruct (send_all env (fmt_rates rates) (select_distinct_hourly db))
      as [tr1 [e3|[]]] eqn:S1; simpl;
      [intros [= ->]; right; right; eapply Hsend, S1|].
    destruct (db_error env SelectDaily) as [e4|] eqn:H4; simpl;
      [intros [= ->]; eauto|].
    destruct (send_all env (fmt_rates rates)
                (select_distinct_daily (strftime_HM now) db))
      as [tr2 r2] eqn:S2. simpl.
    intros ->. right; right. eapply Hsend, S2.
  - destruct (db_error env SelectDaily) as [e4|] eqn:H4; simpl;
      [intros [= ->]; eauto|].
    destruct (send_all env (fmt_rates rates)
                (select_distinct_daily (strftime_HM now) db))
      as [tr2 r2] eqn:S2. simpl.
    intros ->. right; right. eapply Hsend, S2.
Qed.

Lemma tick_body_not_cancelled (env : tick_env Rates) now db :
  not_cancelled env ->
  snd (tick_body fmt_rates env now db) <> inl CancelledError.
Proof.
  intros (Hf & Hd & Hs) H.
  apply tick_body_raises in H as [H | [[s H] | [c H]]].
  - exact (Hf H).
  - exact (Hd s H).
  - exact (Hs c H).
Qed.

Lemma upto_first_failure_none fails l :
  existsb fails l = false -> upto_first_failure fails l = l.
Proof.
  induction l as [|c l IH]; simpl; [reflexivity|].
  destruct (fails c); simpl; [discriminate|].
  intros H. rewrite IH by exact H. reflexivity.
Qed.

(** The sending loop ends with the exception of the first chat whose
    [send_message] raises, and returns when there is none. *)
Lemma send_all_result (env : tick_env Rates) text chats :
  snd (send_all env text chats)
  = match find (fun c => is_some (send_message env c)) chats with
    | Some c => match send_message env c with
                | Some e => inl e
                | None => inr tt
                end
    | None => inr tt
    end.
Proof.
  induction chats as [|c cs IH]; simpl; [reflexivity|].
  destruct (send_message env c) as [e|] eqn:Hs; simpl.
  - rewrite Hs. reflexivity.
  - unfold bind, emit. destruct (send_all env text cs) as [tr r].
    simpl in *. exact IH.
Qed.

Lemma find_app {A} (f : A -> bool) l1 l2 :
  find f (l1 ++ l2)
  = match find f l1 with Some x => Some x | None => find f l2 end.
Proof.
  induction l1 as [|x l1 IH]; simpl; [reflexivity|].
  destruct (f x); [reflexivity|exact IH].
Qed.

Lemma find_some_fails (env : tick_env Rates) chats c :
  find (fun c => is_some (send_message env c)) chats = Some c ->
  exists e, send_message env c = Some e.
Proof.
  intros H. apply find_some in H as [_ H].
  destruct (send_message env c) as [e|]; [eauto|discriminate].
Qed.

(** The outcome of the body of an iteration whose fetch and database steps
    succeed. *)
Lemma tick_body_result (env : tick_env Rates) now db rates :
  get_rates env = inr rates -> db_ok env ->
  snd (tick_body fmt_rates env now db)
  = match find (fun c => is_some (send_message env c))
               (due_hourly now db ++ due_daily now db) with
    | Some c => match send_message env c with
                | Some e => inl e
                | None => inr tt
                end
    | None => inr tt
    end.
Proof.
  intros Hf Hdb. rewrite (tick_body_sends env now db rates Hf Hdb).
  rewrite find_app.
  pose proof (send_all_result env (fmt_rates rates) (due_hourly now db)) as R1.
  pose proof (send_all_result env (fmt_rates rates) (due_daily now db)) as R2.
  destruct (send_all env (fmt_rates rates) (due_hourly now db)) as [tr1 r1].
  destruct (send_all env (fmt_rates rates) (due_daily now db)) as [tr2 r2].
  simpl in R1, R2. subst r1 r2.
  destruct (find _ (due_hourly now db)) as [c|] eqn:F; [|reflexivity].
  destruct (find_some_fails env _ c F) as [e He]. rewrite He. reflexivity.
Qed.

(** C1, as the code has it: in an iteration whose fetch and database steps
    succeed, the chats tried are the due chats, hourly ones first, up to
    and including the first chat whose [send_message] raises; the chats
    after it are not tried in that iteration.  The body returns when no
    delivery raises and otherwise ends with the exception of that first
    delivery; when this is an error, an instance of [Exception], the
    iteration prints it and sleeps, and the loop goes on with the
    remaining iterations. *)
Theorem tick_attempts_stop_at_first_failure :
  forall (env : tick_env Rates) now db rates,
  get_rates env = inr rates -> db_ok env ->
  let raises := fun c => is_some (send_message env c) in
  let due := due_hourly now db ++ due_daily now db in
  attempts (fst (tick_body fmt_rates env now db))
    = upto_first_failure raises due /\
  (find raises due = None -> snd (tick_body fmt_rates env now db) = inr tt) /\
  (forall c e,
     find raises due = Some c -> send_message env c = Some e ->
     snd (tick_body fmt_rates env now db) = inl e) /\
  (forall c what clk rest,
     find raises due = Some c ->
     send_message env c = Some (Exception what) ->
     now = datetime_of_seconds clk ->
     notifier_loop fmt_rates (env :: rest) (mkState clk db)
     = (let '(tr', stop, st'') :=
          notifier_loop fmt_rates rest
            (mkState (clk + Z.of_N (elapsed env) + 60) db) in
        (ClockRead clk
           :: fst (tick_body fmt_rates env now db)
           ++ Printed (Exception what) :: Slept 60 :: tr',
         stop, st''))).
Proof.
  intros env now db rates Hf Hdb raises due.
  pose proof (tick_body_result env now db rates Hf Hdb) as Hres.
  subst raises. fold due in Hres.
  split; [|split; [|split]].
  - rewrite (tick_body_sends env now db rates Hf Hdb).
    unfold due. rewrite upto_first_failure_app.
    destruct (send_all_spec env (fmt_rates rates) (due_hourly now db))
      as (A1 & O1 & B1).
    destruct (send_all_spec env (fmt_rates rates) (due_daily now db))
      as (A2 & _ & _).
    destruct (send_all env (fmt_rates rates) (due_hourly now db)) as [tr1 r1].
    destruct (send_all env (fmt_rates rates) (due_daily now db)) as [tr2 r2].
    simpl in *.
    destruct (existsb (fails env) (due_hourly now db)) eqn:E.
    + destruct (B1 eq_refl) as (e & c & _ & _ & ->). exact A1.
    + rewrite (O1 eq_refl). simpl. rewrite attempts_app, A1, A2.
      rewrite (upto_first_failure_none _ _ E). reflexivity.
  - intros Hnone. rewrite Hres, Hnone. reflexivity.
  - intros c e Hc He. rewrite Hres, Hc, He. reflexivity.
  - intros c what clk rest Hc He ->.
    assert (Hb : snd (tick_body fmt_rates env (datetime_of_seconds clk) db)
                 = inl (Exception what))
      by (rewrite Hres, Hc, He; reflexivity).
    simpl.
    destruct (tick_body fmt_rates env (datetime_of_seconds clk) db) as [tr r].
    simpl in Hb. subst r.
    destruct (notifier_loop fmt_rates rest _) as [[tr' stop] st''].
    reflexivity.
Qed.

(** C5: hourly chats are due exactly in minute 0 and are the chats of the
    hourly rows; daily chats are the chats of the daily rows whose stored
    time is the clock reading printed as HH:MM; neither list repeats a
    chat; and when nothing raises, the iteration sends one message to each
    chat of the hourly list and then one to each chat of the daily list,
    and nothing else. *)
Theorem due_chats_spec : forall now db,
  (forall c, In c (due_hourly now db) <->
     minute now = 0 /\
     exists r, In r (rows db) /\ kind r = "hourly" /\ chat_id r = c) /\
  (forall c, In c (due_daily now db) <->
     exists r, In r (rows db) /\ kind r = "daily" /\
               daily_time r = Some (strftime_HM now) /\ chat_id r = c) /\
  NoDup (due_hourly now db) /\
  NoDup (due_daily now db) /\
  (forall (env : tick_env Rates) rates,
     get_rates env = inr rates -> db_ok env ->
     (forall c, send_message env c = None) ->
     tick_body fmt_rates env now db
     = (map (fun c => SendMessage c (fmt_rates rates) None)
            (due_hourly now db ++ due_daily now db), inr tt)).
Proof.
  intros now db. split; [|split; [|split; [|split]]].
  - intros c. unfold due_hourly. destruct (minute now =? 0) eqn:E.
    + apply Z.eqb_eq in E. rewrite select_distinct_hourly_In. tauto.
    + apply Z.eqb_neq in E. simpl. tauto.
  - intros c. apply select_distinct_daily_In.
  - unfold due_hourly. destruct (minute now =? 0);
      [apply distinct_NoDup|constructor].
  - apply distinct_NoDup.
  - intros env rates Hf Hdb Hs.
    rewrite (tick_body_sends env now db rates Hf Hdb).
    rewrite !send_all_ok by (intros; apply Hs).
    rewrite map_app. reflexivity.
Qed.

Lemma send_all_is_send (env : tick_env Rates) text chats :
  Forall is_send (fst (send_all env text chats)).
Proof.
  induction chats as [|c cs IH]; simpl; [constructor|].
  destruct (send_message env c); simpl.
  - repeat constructor.
  - unfold bind, emit. destruct (send_all env text cs) as [tr r].
    simpl in *. constructor; [exact I|exact IH].
Qed.

(** The body of an iteration does nothing to the outside but send. *)
Lemma tick_body_is_send (env : tick_env Rates) now db :
  Forall is_send (fst (tick_body fmt_rates env now db)).
Proof.
  unfold tick_body, bind, lift, guard, ret, raise.
  destruct (get_rates env) as [e0|rates]; simpl; [constructor|].
  destruct (db_error env Connect); simpl; [constructor|].
  pose proof (send_all_is_send env (fmt_rates rates)
                (select_distinct_hourly db)) as F1.
  pose proof (send_all_is_send env (fmt_rates rates)
                (select_distinct_daily (strftime_HM now) db)) as F2.
  destruct (send_all env (fmt_rates rates) (select_distinct_hourly db))
    as [tr1 r1].
  destruct (send_all env (fmt_rates rates)
              (select_distinct_daily (strftime_HM now) db)) as [tr2 r2].
  simpl in *.
  destruct (minute now =? 0); simpl.
  - destruct (db_error env SelectHourly); simpl; [constructor|].
    destruct r1 as [e|[]]; simpl; [exact F1|].
    destruct (db_error env SelectDaily); simpl.
    + rewrite app_nil_r. exact F1.
    + apply Forall_app. split; assumption.
  - destruct (db_error env SelectDaily); simpl; [constructor|exact F2].
Qed.

Lemma clock_reads_is_send tr : Forall is_send tr -> clock_reads tr = [].
Proof.
  induction 1 as [|ev tr Hev _ IH]; [reflexivity|].
  destruct ev; simpl in *; try contradiction. exact IH.
Qed.

(** One iteration that is not cancelled, whatever else happens in it: its
    trace is the clock reading, the sends, the printed line if the body
    raised, and the sleep; then the loop goes on, 60 seconds after the body
    ended and with the same database. *)
Lemma notifier_loop_step (env : tick_env Rates) rest st :
  not_cancelled env ->
  exists tr,
    Forall is_send tr /\
    fst (tick_body fmt_rates env (datetime_of_seconds (clock st)) (db st)) = tr /\
    notifier_loop fmt_rates (env :: rest) st
    = (let '(tr', stop, st'') :=
         notifier_loop fmt_rates rest
           (mkState (clock st + Z.of_N (elapsed env) + 60) (db st)) in
       (ClockRead (clock st)
          :: tr ++ match snd (tick_body fmt_rates env
                                (datetime_of_seconds (clock st)) (db st)) with
                   | inl e => [Printed e]
                   | inr _ => []
                   end ++ Slept 60 :: tr',
        stop, st'')).
Proof.
  intros Hnc.
  pose proof (tick_body_not_cancelled env (datetime_of_seconds (clock st))
                (db st) Hnc) as Hne.
  pose proof (tick_body_is_send env (datetime_of_seconds (clock st)) (db st))
    as Hs.
  simpl.
  destruct (tick_body fmt_rates env (datetime_of_seconds (clock st)) (db st))
    as [tr res].
  simpl in *. exists tr. split; [exact Hs|]. split; [reflexivity|].
  destruct res as [[what|]|u].
  - destruct (notifier_loop fmt_rates rest _) as [[tr' stop] st''].
    reflexivity.
  - congruence.
  - destruct (notifier_loop fmt_rates rest _) as [[tr' stop] st''].
    reflexivity.
Qed.

(** The scheduler only reads the database. *)
Lemma notifier_loop_db envs : forall st,
  db (snd (notifier_loop fmt_rates envs st)) = db st.
Proof.
  induction envs as [|env rest IH]; intros st; [reflexivity|].
  simpl.
  destruct (tick_body fmt_rates env _ _) as [tr [[what|]|u]];
    try reflexivity;
    specialize (IH (mkState (clock st + Z.of_N (elapsed env) + 60) (db st)));
    destruct (notifier_loop fmt_rates rest _) as [[tr' stop] st''];
    exact IH.
Qed.

(** C6: when [get_rates] raises an error, the body of the iteration ends
    there with no event at all, so with no delivery attempt; the iteration
    prints the error and sleeps; the database is the one from before; and
    the loop goes on from the state it would go on from after an iteration
    of the same duration that succeeded, so what follows is the same. *)
Theorem fetch_failure_aborts_tick :
  forall (env : tick_env Rates) rest st what,
  get_rates env = inl (Exception what) ->
  let st' := mkState (clock st + Z.of_N (elapsed env) + 60) (db st) in
  tick_body fmt_rates env (datetime_of_seconds (clock st)) (db st)
    = ([], inl (Exception what)) /\
  notifier_loop fmt_rates (env :: rest) st
    = (let '(tr, stop, st'') := notifier_loop fmt_rates rest st' in
       (ClockRead (clock st) :: Printed (Exception what) :: Slept 60 :: tr,
        stop, st'')) /\
  db (snd (notifier_loop fmt_rates (env :: rest) st)) = db st /\
  (forall env2 : tick_env Rates,
     elapsed env2 = elapsed env ->
     snd (tick_body fmt_rates env2 (datetime_of_seconds (clock st)) (db st))
       = inr tt ->
     exists tr2,
       notifier_loop fmt_rates (env2 :: rest) st
       = (let '(tr, stop, st'') := notifier_loop fmt_rates rest st' in
          (ClockRead (clock st) :: tr2 ++ Slept 60 :: tr, stop, st''))).
Proof.
  intros env rest st what Hf st'.
  assert (Hb : tick_body fmt_rates env (datetime_of_seconds (clock st)) (db st)
               = ([], inl (Exception what))).
  { unfold tick_body. rewrite Hf. reflexivity. }
  split; [exact Hb|]. split; [|split].
  - simpl. rewrite Hb. fold st'.
    destruct (notifier_loop fmt_rates rest st') as [[tr stop] st''].
    reflexivity.
  - apply notifier_loop_db.
  - intros env2 He Hok. simpl.
    destruct (tick_body fmt_rates env2 _ _) as [tr2 r2]. simpl in Hok.
    subst r2. exists tr2. rewrite He. fold st'.
    destruct (notifier_loop fmt_rates rest st') as [[tr stop] st''].
    reflexivity.
Qed.

(** C7: over any iterations in which nothing cancels the task, the loop
    never ends: every iteration reads the clock, and the database is
    untouched; and whenever the body of the first iteration raises, at the
    fetch, at a database step or at a delivery, the error is printed, the
    sleep follows, and the remaining iterations run. *)
Theorem notifier_loop_survives_errors :
  forall (envs : list (tick_env Rates)) st,
  Forall (@not_cancelled Rates) envs ->
  snd (fst (notifier_loop fmt_rates envs st)) = None /\
  List.length (clock_reads (fst (fst (notifier_loop fmt_rates envs st))))
    = List.length envs /\
  db (snd (notifier_loop fmt_rates envs st)) = db st /\
  (forall env rest e,
     envs = env :: rest ->
     snd (tick_body fmt_rates env (datetime_of_seconds (clock st)) (db st))
       = inl e ->
     exists tr,
       fst (fst (notifier_loop fmt_rates envs st))
       = ClockRead (clock st) :: tr ++ Printed e :: Slept 60
           :: fst (fst (notifier_loop fmt_rates rest
                          (mkState (clock st + Z.of_N (elapsed env) + 60)
                                   (db st))))).
Proof.
  intros envs st Hall.
  split; [|split; [|split]].
  - revert st. induction Hall as [|env rest Hnc _ IH]; intros st; [reflexivity|].
    destruct (notifier_loop_step env rest st Hnc) as (tr & _ & _ & ->).
    specialize (IH (mkState (clock st + Z.of_N (elapsed env) + 60) (db st))).
    destruct (notifier_loop fmt_rates rest _) as [[tr' stop] st''].
    exact IH.
  - revert st. induction Hall as [|env rest Hnc _ IH]; intros st; [reflexivity|].
    destruct (notifier_loop_step env rest st Hnc) as (tr & Hs & _ & ->).
    specialize (IH (mkState (clock st + Z.of_N (elapsed env) + 60) (db st))).
    destruct (notifier_loop fmt_rates rest _) as [[tr' stop] st''].
    simpl in *. f_equal.
    rewrite !clock_reads_app, (clock_reads_is_send tr Hs). simpl.
    destruct (snd (tick_body fmt_rates env _ _)); simpl; exact IH.
  - apply notifier_loop_db.
  - intros env rest e -> He.
    apply Forall_inv in Hall.
    destruct (notifier_loop_step env rest st Hall) as (tr & _ & _ & ->).
    rewrite He. exists tr.
    destruct (notifier_loop fmt_rates rest _) as [[tr' stop] st''].
    reflexivity.
Qed.

Lemma tick_starts_lower_bound ds : forall t x,
  In x (tick_starts ds t) -> t <= x.
Proof.
  induction ds as [|d ds IH]; intros t x; simpl; [tauto|].
  intros [<- | H]; [lia|]. apply IH in H. lia.
Qed.

Lemma minute_index_next t x : t + 60 <= x -> minute_index t < minute_index x.
Proof.
  unfold minute_index. intros H.
  assert (E : (t + 60) / 60 = t / 60 + 1).
  { replace (t + 60) with (t + 1 * 60) by lia. apply Z.div_add. lia. }
  pose proof (Z.div_le_mono (t + 60) x 60 ltac:(lia) H). lia.
Qed.

Lemma tick_starts_minutes ds : forall t,
  StronglySorted (fun a b => minute_index a < minute_index b) (tick_starts ds t).
Proof.
  induction ds as [|d ds IH]; intros t; simpl; constructor.
  - apply IH.
  - apply Forall_forall. intros x Hx.
    apply tick_starts_lower_bound in Hx. apply minute_index_next. lia.
Qed.

(** C3, as the code has it: unless the task is cancelled, an iteration
    starts 60 seconds after the body of the one before it ended, so the
    start instants are 60 seconds plus the duration of the previous body
    apart; hence the clock readings of a run fall in strictly increasing
    minutes, and no minute is resolved twice. *)
Theorem notifier_loop_tick_starts :
  forall (envs : list (tick_env Rates)) st,
  Forall (@not_cancelled Rates) envs ->
  clock_reads (fst (fst (notifier_loop fmt_rates envs st)))
    = tick_starts (map (fun env => elapsed env) envs) (clock st) /\
  StronglySorted (fun a b => minute_index a < minute_index b)
    (clock_reads (fst (fst (notifier_loop fmt_rates envs st)))).
Proof.
  intros envs st Hall.
  assert (E : clock_reads (fst (fst (notifier_loop fmt_rates envs st)))
              = tick_starts (map (fun env => elapsed env) envs) (clock st)).
  { revert st. induction Hall as [|env rest Hnc _ IH]; intros st; [reflexivity|].
    destruct (notifier_loop_step env rest st Hnc) as (tr & Hs & _ & ->).
    specialize (IH (mkState (clock st + Z.of_N (elapsed env) + 60) (db st))).
    destruct (notifier_loop fmt_rates rest _) as [[tr' stop] st''].
    simpl in *. f_equal.
    rewrite !clock_reads_app, (clock_reads_is_send tr Hs). simpl.
    destruct (snd (tick_body fmt_rates env _ _)); simpl; exact IH. }
  split; [exact E|]. rewrite E. apply tick_starts_minutes.
Qed.

End Tick.

(** ** The properties at concrete runs *)

Lemma env_blocked_101_not_cancelled : not_cancelled env_blocked_101.
Proof.
  split; [discriminate|]. split; [intros s; discriminate|].
  intros c. simpl. destruct (c =? 101); discriminate.
Qed.

Lemma env_fetch_fails_not_cancelled : not_cancelled env_fetch_fails.
Proof.
  split; [discriminate|]. split; [intros s|intros c]; discriminate.
Qed.

Lemma env_ok_not_cancelled d : not_cancelled (env_ok d).
Proof.
  split; [discriminate|]. split; [intros s|intros c]; discriminate.
Qed.

(** At 09:00:00 with chats 101, 102 and 103 due and chat 101 blocking the
    bot, chat 101 is the only one tried; the error is printed, and the
    next iteration starts at 09:01:01. *)
Lemma tick_attempts_stop_at_first_failure_example :
  get_rates env_blocked_101 = inr tt /\
  db_ok env_blocked_101 /\
  attempts (fst (tick_body render env_blocked_101 nine_oclock three_daily_db))
    = [101] /\
  notifier_loop render [env_blocked_101; env_ok 1] (mkState 32400 three_daily_db)
    = ([ClockRead 32400; SendMessage 101 "rates" (Some blocked);
        Printed blocked; Slept 60; ClockRead 32461; Slept 60],
       None, mkState 32522 three_daily_db).
Proof.
  split; [reflexivity|]. split; [intros s; reflexivity|].
  destruct (tick_attempts_stop_at_first_failure render env_blocked_101
              nine_oclock three_daily_db tt eq_refl (fun s => eq_refl))
    as (A & _ & _ & L).
  split.
  - rewrite A. reflexivity.
  - rewrite (L 101 "Forbidden: bot was blocked by the user" 32400 [env_ok 1]
               eq_refl eq_refl eq_refl).
    reflexivity.
Defined.

(** C1, as the specification words it, fails: at 09:00 the chats 101, 102
    and 103 are due, delivery raises for chat 101 only, and the iteration
    ends with that error without having tried chat 102 or chat 103; no
    chat received the message. *)
Lemma blocked_chat_aborts_the_rest :
  due_hourly nine_oclock three_daily_db ++ due_daily nine_oclock three_daily_db
    = [101; 102; 103] /\
  send_message env_blocked_101 102 = None /\
  send_message env_blocked_101 103 = None /\
  tick_body render env_blocked_101 nine_oclock three_daily_db
    = ([SendMessage 101 "rates" (Some blocked)], inl blocked) /\
  ~ In 102 (attempts (fst (tick_body render env_blocked_101 nine_oclock
                             three_daily_db))) /\
  ~ In 103 (attempts (fst (tick_body render env_blocked_101 nine_oclock
                             three_daily_db))) /\
  delivered (fst (tick_body render env_blocked_101 nine_oclock three_daily_db))
    = [].
Proof.
  repeat (split; [reflexivity|]).
  split; [|split; [|reflexivity]]; simpl; intros [H | []]; discriminate H.
Qed.

(** Two subscriptions of different users for the same group chat at
    09:00, and an iteration at 09:00 in which nothing raises: one message
    goes to the chat. *)
Lemma due_chats_spec_example :
  get_rates (env_ok 1) = inr tt /\
  db_ok (env_ok 1) /\
  (forall c, send_message (env_ok 1) c = None) /\
  due_daily nine_oclock shared_chat_db = [500] /\
  tick_body render (env_ok 1) nine_oclock shared_chat_db
    = ([SendMessage 500 "rates" None], inr tt).
Proof.
  split; [reflexivity|]. split; [intros s; reflexivity|].
  split; [intros c; reflexivity|]. split; [reflexivity|].
  destruct (due_chats_spec render nine_oclock shared_chat_db)
    as (_ & _ & _ & _ & E).
  rewrite (E (env_ok 1) tt eq_refl (fun s => eq_refl) (fun c => eq_refl)).
  reflexivity.
Defined.

(** Two subscriptions of different users for the same chat at 09:00: the
    chat is due once, in minute 09:00 only. *)
Example due_daily_shared_chat_once :
  List.length (rows shared_chat_db) = 2%nat /\
  due_daily (mkDatetime 8 59) shared_chat_db = [] /\
  due_daily nine_oclock shared_chat_db = [500] /\
  due_daily (mkDatetime 9 1) shared_chat_db = [] /\
  tick_body render (env_ok 1) nine_oclock shared_chat_db
    = ([SendMessage 500 "rates" None], inr tt).
Proof. repeat split. Qed.

(** A failed fetch at 08:59:00 and the iteration after it, at 09:00:10,
    which delivers to the three due chats. *)
Lemma fetch_failure_aborts_tick_example :
  get_rates env_fetch_fails = inl (Exception "ConnectTimeout") /\
  notifier_loop render [env_fetch_fails; env_ok 1] (mkState 32340 three_daily_db)
    = ([ClockRead 32340; Printed (Exception "ConnectTimeout"); Slept 60;
        ClockRead 32410;
        SendMessage 101 "rates" None; SendMessage 102 "rates" None;
        SendMessage 103 "rates" None; Slept 60],
       None, mkState 32471 three_daily_db).
Proof.
  split; [reflexivity|].
  destruct (fetch_failure_aborts_tick render env_fetch_fails [env_ok 1]
              (mkState 32340 three_daily_db) "ConnectTimeout" eq_refl)
    as (_ & E & _).
  rewrite E. reflexivity.
Defined.

(** Three iterations, the first with a failed fetch and the second with a
    failed delivery: all three run. *)
Lemma notifier_loop_survives_errors_example :
  Forall (@not_cancelled unit) [env_fetch_fails; env_blocked_101; env_ok 1] /\
  snd (fst (notifier_loop render [env_fetch_fails; env_blocked_101; env_ok 1]
              (mkState 32340 three_daily_db))) = None /\
  List.length (clock_reads (fst (fst
     (notifier_loop render [env_fetch_fails; env_blocked_101; env_ok 1]
        (mkState 32340 three_daily_db))))) = 3%nat.
Proof.
  assert (H : Forall (@not_cancelled unit)
                [env_fetch_fails; env_blocked_101; env_ok 1]).
  { apply Forall_cons; [exact env_fetch_fails_not_cancelled|].
    apply Forall_cons; [exact env_blocked_101_not_cancelled|].
    apply Forall_cons; [exact (env_ok_not_cancelled 1)|apply Forall_nil]. }
  split; [exact H|].
  destruct (notifier_loop_survives_errors render
              [env_fetch_fails; env_blocked_101; env_ok 1]
              (mkState 32340 three_daily_db) H) as (A & B & _).
  split; [exact A|exact B].
Defined.

(** Two iterations whose bodies take 2 seconds, the first started at
    00:00:59: the second starts at 00:02:01. *)
Lemma notifier_loop_tick_starts_example :
  Forall (@not_cancelled unit) [env_ok 2; env_ok 2] /\
  clock_reads (fst (fst (notifier_loop render [env_ok 2; env_ok 2]
                           (mkState 59 one_past_midnight_db))))
    = [59; 121].
Proof.
  assert (H : Forall (@not_cancelled unit) [env_ok 2; env_ok 2]).
  { apply Forall_cons; [exact (env_ok_not_cancelled 2)|].
    apply Forall_cons; [exact (env_ok_not_cancelled 2)|apply Forall_nil]. }
  split; [exact H|].
  destruct (notifier_loop_tick_starts render [env_ok 2; env_ok 2]
              (mkState 59 one_past_midnight_db) H) as (E & _).
  rewrite E. reflexivity.
Defined.

(** C3, as the specification words it, fails: with bodies that take 2
    seconds and a first iteration at 00:00:59, the next one starts 62
    seconds later, at 00:02:01; no iteration starts in minute 00:01, and
    the daily subscription of chat 100 at 00:01 is not delivered, though
    the chat is due at every instant of that minute. *)
Lemma slow_tick_skips_a_minute :
  clock_reads (fst (fst (notifier_loop render [env_ok 2; env_ok 2]
                           (mkState 59 one_past_midnight_db))))
    = [59; 121] /\
  ~ fixed_period 60 [59; 121] /\
  map minute_index [59; 121] = [0; 2] /\
  due_daily (datetime_of_seconds 119) one_past_midnight_db = [100] /\
  attempts (fst (fst (notifier_loop render [env_ok 2; env_ok 2]
                        (mkState 59 one_past_midnight_db))))
    = [].
Proof.
  split; [reflexivity|]. split; [|repeat split].
  simpl. intros [H _]. discriminate H.
Qed.

End NotifierFacts.

(** * Properties of the [/subscribe_daily] handler *)

Module HandlerFacts.
Import Store Notifier Props Handlers.

(** ** Splitting at the colon *)

Lemma count_nonneg c s : 0 <= Text.count c s.
Proof.
  induction s as [|a s IH]; simpl; [lia|].
  destruct (a =? c)%N; lia.
Qed.

Lemma count_app c s1 s2 :
  Text.count c (s1 ++ s2) = Text.count c s1 + Text.count c s2.
Proof.
  induction s1 as [|a s1 IH]; simpl; [reflexivity|].
  rewrite IH. lia.
Qed.

Lemma split_on_not_nil c s : Text.split_on c s <> [].
Proof.
  destruct s as [|a s]; simpl; [discriminate|].
  destruct (a =? c)%N; [discriminate|].
  destruct (Text.split_on c s); discriminate.
Qed.

Lemma split_on_none c s : Text.count c s = 0 -> Text.split_on c s = [s].
Proof.
  induction s as [|a s IH]; simpl; [reflexivity|].
  pose proof (count_nonneg c s).
  destruct (a =? c)%N; [lia|].
  intros H0. rewrite IH by lia. reflexivity.
Qed.

Lemma split_on_app c s1 s2 :
  Text.count c s1 = 0 ->
  Text.split_on c (s1 ++ c :: s2) = s1 :: Text.split_on c s2.
Proof.
  induction s1 as [|a s1 IH]; simpl.
  - rewrite N.eqb_refl. reflexivity.
  - pose proof (count_nonneg c s1).
    destruct (a =? c)%N; [lia|].
    intros H0. rewrite IH by lia. reflexivity.
Qed.

Lemma split_on_one c s y : Text.split_on c s = [y] -> s = y.
Proof.
  revert y. induction s as [|a s IH]; simpl; intros y.
  - intros [= <-]. reflexivity.
  - destruct (a =? c)%N.
    + intros [= _ H]. destruct (split_on_not_nil c s H).
    + destruct (Text.split_on c s) as [|p ps] eqn:E.
      * destruct (split_on_not_nil c s E).
      * intros [= <- ->]. rewrite (IH p eq_refl). reflexivity.
Qed.

Lemma split_on_two c s x y :
  Text.split_on c s = [x; y] -> s = x ++ c :: y.
Proof.
  revert x. induction s as [|a s IH]; simpl; intros x.
  - discriminate.
  - destruct (a =? c)%N eqn:Ea.
    + intros [= <- H]. apply N.eqb_eq in Ea. subst a.
      rewrite (split_on_one c s y H). reflexivity.
    + destruct (Text.split_on c s) as [|p ps] eqn:E.
      * intros H. discriminate H.
      * intros [= <- ->]. rewrite (IH p eq_refl). reflexivity.
Qed.

(** ** Digits *)

Section Digits.
Variable U : Text.unicode_db.

Lemma digits_value_decimal s : forall acc v,
  Text.digits_value U s acc = Some v ->
  forallb (Text.isdecimal_char U) s = true.
Proof.
  induction s as [|a s IH]; simpl; intros acc v; [reflexivity|].
  unfold Text.isdecimal_char at 1.
  destruct (Text.decimal_value U a) as [d|]; [|discriminate].
  intros H. simpl. eapply IH, H.
Qed.

Lemma decimal_count_colon s :
  forallb (Text.isdecimal_char U) s = true -> Text.count Text.colon s = 0.
Proof.
  induction s as [|a s IH]; simpl; [reflexivity|].
  intros H. apply andb_true_iff in H as [Ha Hs].
  rewrite (IH Hs).
  destruct (a =? Text.colon)%N eqn:E; [|reflexivity].
  apply N.eqb_eq in E. subst a.
  unfold Text.isdecimal_char in Ha.
  rewrite (Text.colon_not_decimal U) in Ha. discriminate Ha.
Qed.

Lemma decimal_isdigit s :
  s <> [] -> forallb (Text.isdecimal_char U) s = true ->
  Text.isdigit U s = true.
Proof.
  intros Hne H. destruct s as [|a s]; [congruence|].
  unfold Text.isdigit. revert H. generalize (a :: s). clear.
  induction l as [|a s IH]; simpl; [reflexivity|].
  intros H. apply andb_true_iff in H as [Ha Hs].
  unfold Text.isdigit_char. rewrite Ha. simpl. exact (IH Hs).
Qed.

Lemma int_digits s v :
  s <> [] -> Text.digits_value U s 0 = Some v -> Text.int U s = inr v.
Proof.
  intros Hne H. unfold Text.int. destruct s; [congruence|].
  rewrite H. reflexivity.
Qed.

Lemma int_inr s v :
  Text.int U s = inr v -> s <> [] /\ Text.digits_value U s 0 = Some v.
Proof.
  unfold Text.int. destruct s as [|a s]; [discriminate|].
  destruct (Text.digits_value U (a :: s) 0) as [w|]; [|discriminate].
  intros [= ->]. split; [discriminate|reflexivity].
Qed.

(** A run of the characters 0 to 9 has the same value in every database. *)
Lemma digits_value_ascii s : forall acc,
  forallb (fun c => (48 <=? c) && (c <=? 57))%N s = true ->
  Text.digits_value U s acc = Text.digits_value Text.sample_unicode s acc.
Proof.
  induction s as [|a s IH]; intros acc H; [reflexivity|].
  cbn [forallb] in H. apply andb_true_iff in H as [Ha Hs].
  apply andb_true_iff in Ha as [H1 H2]. apply N.leb_le in H1, H2.
  cbn [Text.digits_value].
  rewrite (Text.decimal_value_ascii U (conj H1 H2)).
  rewrite (Text.decimal_value_ascii Text.sample_unicode (conj H1 H2)).
  apply IH, Hs.
Qed.

End Digits.

(** ** The two-digit format on hours and minutes *)

Lemma range_check (P : Z -> bool) (n : nat) :
  forallb P (map Z.of_nat (List.seq 0 n)) = true ->
  forall z, 0 <= z < Z.of_nat n -> P z = true.
Proof.
  rewrite forallb_forall. intros H z Hz. apply H.
  apply in_map_iff. exists (Z.to_nat z). split; [lia|].
  apply in_seq. lia.
Qed.

(** For an hour or a minute, [fmt_02d] gives two of the characters 0 to 9
    that read back as the number. *)
Lemma fmt_02d_two_digits n :
  0 <= n <= 59 ->
  String.length (Text.fmt_02d n) = 2%nat /\
  Text.digits_value Text.sample_unicode (Text.of_string (Text.fmt_02d n)) 0
    = Some n.
Proof.
  intros Hn.
  pose (P := fun z =>
    ((String.length (Text.fmt_02d z) =? 2)%nat
     && match Text.digits_value Text.sample_unicode
                (Text.of_string (Text.fmt_02d z)) 0 with
        | Some v => v =? z
        | None => false
        end)%bool).
  assert (H : P n = true).
  { apply (range_check P 60); [vm_compute; reflexivity|lia]. }
  unfold P in H. apply andb_true_iff in H as [H1 H2].
  apply Nat.eqb_eq in H1. split; [exact H1|].
  destruct (Text.digits_value _ _ 0) as [v|]; [|discriminate].
  apply Z.eqb_eq in H2. congruence.
Qed.

Lemma fmt_02d_ascii n :
  0 <= n <= 59 ->
  forallb (fun c => (48 <=? c) && (c <=? 57))%N
          (Text.of_string (Text.fmt_02d n)) = true.
Proof.
  intros Hn.
  apply (range_check
           (fun z => forallb (fun c => (48 <=? c) && (c <=? 57))%N
                             (Text.of_string (Text.fmt_02d z))) 60);
    [vm_compute; reflexivity|lia].
Qed.

Lemma string_length_app s1 s2 :
  String.length (s1 ++ s2)%string = (String.length s1 + String.length s2)%nat.
Proof. induction s1 as [|a s1 IH]; simpl; [reflexivity|]. rewrite IH. reflexivity. Qed.

Lemma of_string_app s1 s2 :
  Text.of_string (s1 ++ s2)%string = Text.of_string s1 ++ Text.of_string s2.
Proof.
  unfold Text.of_string.
  induction s1 as [|a s1 IH]; simpl; [reflexivity|]. rewrite IH. reflexivity.
Qed.

Lemma of_string_length s : List.length (Text.of_string s) = String.length s.
Proof.
  unfold Text.of_string.
  induction s as [|a s IH]; simpl; [reflexivity|]. rewrite IH. reflexivity.
Qed.

Lemma next_id_gt_seq db : seq db < next_id db.
Proof.
  unfold next_id.
  assert (H : forall l b, b <= fold_right Z.max b l).
  { induction l as [|x l IH]; intros b; simpl; [lia|].
    specialize (IH b). lia. }
  specialize (H (map id (rows db)) (seq db)). lia.
Qed.

(** The handler on an argument that is a time of day. *)
Lemma cmd_subscribe_daily_valid U text u c now db a hh mm :
  time_arg text = Some a -> valid_time U a hh mm ->
  cmd_subscribe_daily U text u c now db
  = match add_sub u c "daily"
            (Some (Text.fmt_02d hh ++ ":" ++ Text.fmt_02d mm)%string) now db with
    | inl e => (inl e, db)
    | inr db' =>
        (inr (DailyDone (Text.fmt_02d hh ++ ":" ++ Text.fmt_02d mm)%string), db')
    end.
Proof.
  intros Ha (hs & ms & -> & Hhs & Hms & Vh & Vm & Rh & Rm).
  unfold time_arg in Ha. unfold cmd_subscribe_daily.
  destruct (Text.split _) as [|p0 [|a' rest]]; try discriminate.
  injection Ha as ->.
  pose proof (digits_value_decimal U _ _ _ Vh) as Dh.
  pose proof (digits_value_decimal U _ _ _ Vm) as Dm.
  assert (Hc : Text.count Text.colon (hs ++ Text.colon :: ms) = 1).
  { rewrite count_app. simpl.
    rewrite (decimal_count_colon U _ Dh), (decimal_count_colon U _ Dm).
    reflexivity. }
  rewrite Hc. simpl negb. cbv iota.
  rewrite (split_on_app Text.colon hs ms (decimal_count_colon U _ Dh)).
  rewrite (split_on_none Text.colon ms (decimal_count_colon U _ Dm)).
  rewrite (decimal_isdigit U hs Hhs Dh), (decimal_isdigit U ms Hms Dm).
  simpl negb. cbv iota.
  rewrite (int_digits U hs hh Hhs Vh), (int_digits U ms mm Hms Vm).
  replace ((0 <=? hh) && (hh <=? 23) && (0 <=? mm) && (mm <=? 59)) with true.
  - reflexivity.
  - symmetry. rewrite !andb_true_iff, !Z.leb_le. lia.
Qed.

(** The handler either leaves the database alone or was given an argument
    that is a time of day. *)
Lemma cmd_subscribe_daily_cases U text u c now db :
  snd (cmd_subscribe_daily U text u c now db) = db \/
  exists a hh mm, time_arg text = Some a /\ valid_time U a hh mm.
Proof.
  unfold cmd_subscribe_daily, time_arg.
  destruct (Text.split _) as [|p0 [|a rest]]; simpl; auto.
  destruct (Text.count Text.colon a =? 1); simpl; auto.
  destruct (Text.split_on Text.colon a) as [|hs [|ms [|x l]]] eqn:Es;
    simpl; auto.
  destruct (Text.isdigit U hs) eqn:Ih; simpl; auto.
  destruct (Text.isdigit U ms) eqn:Im; simpl; auto.
  destruct (Text.int U hs) as [e|hh] eqn:Vh; simpl; auto.
  destruct (Text.int U ms) as [e|mm] eqn:Vm; simpl; auto.
  destruct ((0 <=? hh) && (hh <=? 23) && (0 <=? mm) && (mm <=? 59)) eqn:R;
    simpl; auto.
  right. exists a, hh, mm. split; [reflexivity|].
  apply int_inr in Vh as [Nh Vh]. apply int_inr in Vm as [Nm Vm].
  rewrite !andb_true_iff, !Z.leb_le in R.
  exists hs, ms. split; [exact (split_on_two Text.colon a hs ms Es)|].
  repeat split; try assumption; lia.
Qed.

(** C10: for every message, of whatever characters, and every character
    database of the runtime: on an argument that is a time of day, with
    one colon between two runs of decimal digits worth an hour and a
    minute, the handler stores a daily subscription whose time is the five
    characters HH:MM with both numbers zero-filled; that text is again a
    time of day with the same hour and minute, is what [strftime("%H:%M")]
    prints in that minute, and makes the chat due in an iteration of that
    minute.  On any other argument, or without one, the handler leaves the
    database as it was. *)
Theorem cmd_subscribe_daily_stores_iff_valid : forall U text u c now db,
  (forall a hh mm,
     time_arg text = Some a -> valid_time U a hh mm ->
     let t := (Text.fmt_02d hh ++ ":" ++ Text.fmt_02d mm)%string in
     exists db',
       cmd_subscribe_daily U text u c now db = (inr (DailyDone t), db') /\
       db' <> db /\
       subs_of u "daily" db' = [mkRow (next_id db) u c "daily" (Some t) now] /\
       String.length t = 5%nat /\
       valid_time U (Text.of_string t) hh mm /\
       t = strftime_HM (mkDatetime hh mm) /\
       In c (due_daily (mkDatetime hh mm) db')) /\
  (snd (cmd_subscribe_daily U text u c now db) <> db ->
   exists a hh mm, time_arg text = Some a /\ valid_time U a hh mm) /\
  ((forall a hh mm, time_arg text = Some a -> ~ valid_time U a hh mm) ->
   snd (cmd_subscribe_daily U text u c now db) = db).
Proof.
  intros U text u c now db. split; [|split].
  2: { intros Hne.
       destruct (cmd_subscribe_daily_cases U text u c now db) as [E | H];
         [contradiction|exact H]. }
  2: { intros Hno.
       destruct (cmd_subscribe_daily_cases U text u c now db)
         as [E | (a & hh & mm & Ha & Hv)]; [exact E|].
       destruct (Hno a hh mm Ha Hv). }
  intros a hh mm Ha Hv t.
  assert (Rh : 0 <= hh <= 59) by (destruct Hv as (? & ? & ? & ? & ? & ? & ? & ? & ?); lia).
  assert (Rm : 0 <= mm <= 59) by (destruct Hv as (? & ? & ? & ? & ? & ? & ? & ? & ?); lia).
  assert (Rh' : 0 <= hh <= 23) by (destruct Hv as (? & ? & ? & ? & ? & ? & ? & ? & ?); lia).
  destruct (fmt_02d_two_digits hh Rh) as [Lh Dh].
  destruct (fmt_02d_two_digits mm Rm) as [Lm Dm].
  rewrite <- (digits_value_ascii U _ 0 (fmt_02d_ascii hh Rh)) in Dh.
  rewrite <- (digits_value_ascii U _ 0 (fmt_02d_ascii mm Rm)) in Dm.
  assert (Nh : Text.of_string (Text.fmt_02d hh) <> []).
  { intros E. apply (f_equal (@List.length N)) in E.
    rewrite of_string_length, Lh in E. discriminate. }
  assert (Nm : Text.of_string (Text.fmt_02d mm) <> []).
  { intros E. apply (f_equal (@List.length N)) in E.
    rewrite of_string_length, Lm in E. discriminate. }
  assert (Nt : t <> EmptyString).
  { intros E. apply (f_equal String.length) in E. unfold t in E.
    rewrite string_length_app, Lh in E. discriminate. }
  pose proof (cmd_subscribe_daily_valid U text u c now db a hh mm Ha Hv) as Hrun.
  fold t in Hrun.
  pose proof (StoreFacts.add_sub_daily u c t now db Nt) as Hadd.
  rewrite Hadd in Hrun.
  eexists. split; [exact Hrun|].
  split; [|split; [|split; [|split; [|split]]]].
  - intros E. pose proof (next_id_gt_seq db) as Hlt.
    rewrite <- E in Hlt at 1. simpl in Hlt. lia.
  - apply (StoreFacts.add_sub_replaces _ _ _ _ _ _ _ Hadd).
  - unfold t. rewrite !string_length_app, Lh, Lm. reflexivity.
  - exists (Text.of_string (Text.fmt_02d hh)), (Text.of_string (Text.fmt_02d mm)).
    split; [unfold t; rewrite !of_string_app; reflexivity|].
    repeat split; try assumption; lia.
  - reflexivity.
  - apply NotifierFacts.select_distinct_daily_In.
    exists (mkRow (next_id db) u c "daily" (Some t) now).
    simpl. repeat split; try reflexivity.
    apply in_or_app. right. left. reflexivity.
Qed.

Lemma valid_time_9_5 : valid_time Text.sample_unicode (Text.of_string "9:5") 9 5.
Proof.
  exists (Text.of_string "9"), (Text.of_string "5"). split; [reflexivity|].
  split; [discriminate|]. split; [discriminate|].
  split; [reflexivity|]. split; [reflexivity|]. lia.
Qed.

(** The argument 9:5 is stored as 09:05. *)
Lemma cmd_subscribe_daily_stores_iff_valid_example :
  time_arg (Some (Text.of_string "/subscribe_daily 9:5"))
    = Some (Text.of_string "9:5") /\
  valid_time Text.sample_unicode (Text.of_string "9:5") 9 5 /\
  fst (cmd_subscribe_daily Text.sample_unicode
         (Some (Text.of_string "/subscribe_daily 9:5")) 1 100
         "2024-05-01T08:00:00+00:00" init_db)
    = inr (DailyDone "09:05") /\
  subs_of 1 "daily"
    (snd (cmd_subscribe_daily Text.sample_unicode
            (Some (Text.of_string "/subscribe_daily 9:5")) 1 100
            "2024-05-01T08:00:00+00:00" init_db))
    = [mkRow 1 1 100 "daily" (Some "09:05") "2024-05-01T08:00:00+00:00"].
Proof.
  split; [reflexivity|]. split; [exact valid_time_9_5|].
  destruct (proj1 (cmd_subscribe_daily_stores_iff_valid Text.sample_unicode
                     (Some (Text.of_string "/subscribe_daily 9:5")) 1 100
                     "2024-05-01T08:00:00+00:00" init_db)
              (Text.of_string "9:5") 9 5 eq_refl valid_time_9_5)
    as (db' & E & _ & R & _).
  rewrite E. split; [reflexivity|exact R].
Defined.

(** The same time typed in Arabic-Indic digits, U+0669 U+003A U+0665, is a
    time of day, and the handler stores 09:05 for it. *)
Example cmd_subscribe_daily_arabic_indic :
  valid_time Text.sample_unicode [1641; 58; 1637]%N 9 5 /\
  cmd_subscribe_daily Text.sample_unicode
    (Some (Text.of_string "/subscribe_daily " ++ [1641; 58; 1637]%N)) 1 100
    "2024-05-01T08:00:00+00:00" init_db
  = (inr (DailyDone "09:05"),
     mkDB [mkRow 1 1 100 "daily" (Some "09:05") "2024-05-01T08:00:00+00:00"] 1).
Proof.
  split; [|reflexivity].
  exists [1641%N], [1637%N]. split; [reflexivity|].
  split; [discriminate|]. split; [discriminate|].
  split; [reflexivity|]. split; [reflexivity|]. lia.
Qed.

(** The answers to arguments that are no time of day; none of them
    changes the database.  The last argument is a superscript two before
    the colon: [isdigit] accepts it and [int] raises. *)
Example cmd_subscribe_daily_rejects :
  let run := fun s =>
    cmd_subscribe_daily Text.sample_unicode (Some s) 1 100 "" init_db in
  run (Text.of_string "/subscribe_daily") = (inr UsageHint, init_db) /\
  cmd_subscribe_daily Text.sample_unicode None 1 100 "" init_db
    = (inr UsageHint, init_db) /\
  run (Text.of_string "/subscribe_daily 0905") = (inr NeedOneColon, init_db) /\
  run (Text.of_string "/subscribe_daily 9:05:00") = (inr NeedOneColon, init_db) /\
  run (Text.of_string "/subscribe_daily :05") = (inr MustBeNumbers, init_db) /\
  run (Text.of_string "/subscribe_daily 9:-5") = (inr MustBeNumbers, init_db) /\
  run (Text.of_string "/subscribe_daily 24:00") = (inr OutOfRange, init_db) /\
  run (Text.of_string "/subscribe_daily 23:60") = (inr OutOfRange, init_db) /\
  run (Text.of_string "/subscribe_daily " ++ [178; 58; 53]%N)
    = (inl (Exception "ValueError"), init_db).
Proof. repeat split. Qed.

End HandlerFacts.

(** * Further properties of the store *)

Module StoreMore.
Import Store Props MoreProps StoreFacts.

(** A successful [add_sub] was given one of the two kinds, and a time that
    is not empty when the kind is daily. *)
Lemma add_sub_inr_timed u c k dt now db db' :
  add_sub u c k dt now db = inr db' ->
  check_kind k = true /\ (k = "daily" -> truthy dt = true).
Proof.
  unfold add_sub.
  destruct (k =? "daily")%string eqn:Ek; simpl.
  - destruct (truthy dt); simpl; [|discriminate].
    destruct (check_kind k); [auto|discriminate].
  - apply String.eqb_neq in Ek.
    destruct (check_kind k); [|discriminate]. intros _. split; [reflexivity|].
    intros E. contradiction.
Qed.

Lemma in_delete_where p (t : list Row) r :
  In r (delete_where p t) -> In r t.
Proof. unfold delete_where. intros H. apply filter_In in H. tauto. Qed.

Lemma apply_op_rows db o r :
  In r (rows (apply_op db o)) ->
  In r (rows db) \/
  exists u c k dt now,
    o = Upsert u c k dt now /\ add_sub u c k dt now db = inr (apply_op db o) /\
    r = mkRow (next_id db) u c k dt now.
Proof.
  destruct o as [u c k dt now | u]; simpl.
  - destruct (add_sub u c k dt now db) as [e|db'] eqn:H; [auto|].
    destruct (add_sub_inr _ _ _ _ _ _ _ H) as [_ ->]. simpl.
    intros Hin. apply in_app_or in Hin as [Hin | [<- | []]].
    + left. eapply in_delete_where, Hin.
    + right. exists u, c, k, dt, now. auto.
  - intros Hin. left. eapply in_delete_where, Hin.
Qed.

Lemma apply_op_checked db o :
  table_checked db /\ daily_rows_timed db ->
  table_checked (apply_op db o) /\ daily_rows_timed (apply_op db o).
Proof.
  intros [Hc Ht]. split; intros r Hin;
    apply apply_op_rows in Hin as [Hin | (u & c & k & dt & now & _ & Ha & ->)];
    auto; apply add_sub_inr_timed in Ha as [Hk Hd]; simpl; auto.
Qed.

Lemma run_checked ops : forall db,
  table_checked db /\ daily_rows_timed db ->
  table_checked (run ops db) /\ daily_rows_timed (run ops db).
Proof.
  unfold run. induction ops as [|o ops IH]; intros db H; simpl; [exact H|].
  apply IH, apply_op_checked, H.
Qed.

Lemma init_db_checked : table_checked init_db /\ daily_rows_timed init_db.
Proof. split; intros r []. Qed.

(** X1: every table built from the empty one by the store functions
    satisfies the [CHECK] constraint, and each of its daily rows has a
    time that is not empty; and so it stays under every further call. *)
Theorem reachable_rows_well_formed : forall ops,
  table_checked (run ops init_db) /\ daily_rows_timed (run ops init_db) /\
  forall o,
    table_checked (apply_op (run ops init_db) o) /\
    daily_rows_timed (apply_op (run ops init_db) o).
Proof.
  intros ops.
  pose proof (run_checked ops init_db init_db_checked) as H.
  destruct H as [Hc Ht]. split; [exact Hc|]. split; [exact Ht|].
  intros o. apply apply_op_checked. split; assumption.
Qed.

Lemma fold_max_bounded s (l : list Z) :
  Forall (fun i => i <= s) l -> fold_right Z.max s l = s.
Proof.
  induction 1 as [|x l Hx _ IH]; simpl; [reflexivity|]. rewrite IH. lia.
Qed.

Lemma ids_ordered_next_id db : ids_ordered db -> next_id db = seq db + 1.
Proof.
  intros [_ Hb]. unfold next_id. rewrite (fold_max_bounded _ _ Hb). lia.
Qed.

Lemma sorted_delete_append p (t : list Row) s new :
  StronglySorted Z.lt (map id t) ->
  Forall (fun i => i <= s) (map id t) ->
  id new = s + 1 ->
  StronglySorted Z.lt (map id (delete_where p t ++ [new])) /\
  Forall (fun i => i <= s + 1) (map id (delete_where p t ++ [new])).
Proof.
  intros Hs Hb Hn. unfold delete_where.
  induction t as [|x t IH]; simpl in *.
  - rewrite Hn. split; repeat constructor. lia.
  - inversion Hs as [|? ? Hs' Hx]; subst. inversion Hb as [|? ? Hxs Hb']; subst.
    destruct (IH Hs' Hb') as [IH1 IH2].
    destruct (p x); simpl; [auto|].
    split; constructor; [exact IH1| |lia|exact IH2].
    rewrite map_app, Forall_app. split.
    + rewrite Forall_forall in Hx |- *. intros i Hi. apply Hx.
      apply in_map_iff in Hi as (r & <- & Hr). apply filter_In in Hr as [Hr _].
      apply in_map, Hr.
    + simpl. constructor; [lia|constructor].
Qed.

Lemma sorted_delete p (t : list Row) s :
  StronglySorted Z.lt (map id t) ->
  Forall (fun i => i <= s) (map id t) ->
  StronglySorted Z.lt (map id (delete_where p t)) /\
  Forall (fun i => i <= s) (map id (delete_where p t)).
Proof.
  intros Hs Hb. unfold delete_where.
  induction t as [|x t IH]; simpl in *; [auto|].
  inversion Hs as [|? ? Hs' Hx]; subst. inversion Hb as [|? ? Hxs Hb']; subst.
  destruct (IH Hs' Hb') as [IH1 IH2].
  destruct (p x); simpl; [auto|].
  split; constructor; auto.
  rewrite Forall_forall in Hx |- *. intros i Hi. apply Hx.
  apply in_map_iff in Hi as (r & <- & Hr). apply filter_In in Hr as [Hr _].
  apply in_map, Hr.
Qed.

Lemma apply_op_ids db o :
  ids_ordered db ->
  ids_ordered (apply_op db o) /\
  seq db <= seq (apply_op db o) /\
  (forall r, In r (rows (apply_op db o)) -> In r (rows db) \/ seq db < id r).
Proof.
  intros Hi. pose proof (ids_ordered_next_id _ Hi) as Hn.
  split; [|split].
  - destruct Hi as [Hs Hb]. destruct o as [u c k dt now | u]; simpl.
    + destruct (add_sub u c k dt now db) as [e|db'] eqn:H; [split; assumption|].
      destruct (add_sub_inr _ _ _ _ _ _ _ H) as [_ ->].
      unfold ids_ordered. simpl. rewrite Hn.
      apply sorted_delete_append; auto.
    + unfold ids_ordered. simpl. apply sorted_delete; assumption.
  - destruct o as [u c k dt now | u]; simpl; [|lia].
    destruct (add_sub u c k dt now db) as [e|db'] eqn:H; [lia|].
    destruct (add_sub_inr _ _ _ _ _ _ _ H) as [_ ->]. simpl. lia.
  - intros r Hin.
    apply apply_op_rows in Hin as [Hin | (u & c & k & dt & now & _ & _ & ->)];
      [auto|]. right. simpl. lia.
Qed.

Lemma sorted_lt_NoDup (l : list Z) : StronglySorted Z.lt l -> NoDup l.
Proof.
  induction 1 as [|x l _ IH Hx]; constructor; [|exact IH].
  intros Hin. rewrite Forall_forall in Hx. specialize (Hx x Hin). lia.
Qed.

(** X2: in every table built from the empty one by the store functions
    the ids grow along the table, so no two rows share an id, and none
    exceeds the counter; a further call never lowers the counter, and every
    row it adds has an id above the counter, so above every id handed out
    before, deleted rows included. *)
Theorem reachable_ids_fresh : forall ops,
  ids_ordered (run ops init_db) /\
  NoDup (map id (rows (run ops init_db))) /\
  (forall o,
     seq (run ops init_db) <= seq (apply_op (run ops init_db) o) /\
     forall r, In r (rows (apply_op (run ops init_db) o)) ->
               In r (rows (run ops init_db)) \/ seq (run ops init_db) < id r).
Proof.
  intros ops.
  assert (H : ids_ordered (run ops init_db)).
  { unfold run.
    assert (H0 : ids_ordered init_db) by (split; constructor).
    revert H0. generalize init_db.
    induction ops as [|o ops IH]; intros db H0; simpl; [exact H0|].
    apply IH, (apply_op_ids db o H0). }
  split; [exact H|]. split; [apply sorted_lt_NoDup, H|].
  intros o. apply (apply_op_ids _ o H).
Qed.

(** Under the [CHECK] constraint the listing is the daily entries followed
    by the hourly ones. *)
Lemma list_subs_checked u db :
  table_checked db ->
  list_subs u db
  = map sub_entry (subs_of u "daily" db) ++ map sub_entry (subs_of u "hourly" db).
Proof.
  intros Hc. unfold list_subs, subs_of. rewrite order_by_kind_checked.
  - rewrite map_app, !filter_owned_kind. reflexivity.
  - intros x Hx. apply filter_In in Hx as [Hx _]. apply Hc, Hx.
Qed.

Lemma add_sub_checked u c k dt now db db' :
  table_checked db -> add_sub u c k dt now db = inr db' -> table_checked db'.
Proof.
  intros Hc H r Hin.
  pose proof (add_sub_inr_timed _ _ _ _ _ _ _ H) as [Hk _].
  apply add_sub_inr in H as [_ ->]. simpl in Hin.
  apply in_app_or in Hin as [Hin | [<- | []]]; [|exact Hk].
  apply Hc. eapply in_delete_where, Hin.
Qed.

Lemma add_sub_owned_other u c k dt now db db' u' :
  add_sub u c k dt now db = inr db' -> u' <> u ->
  filter (owned u') (rows db') = filter (owned u') (rows db).
Proof.
  intros H Hne. apply add_sub_inr in H as [_ ->]. simpl.
  rewrite filter_app. simpl. unfold owned at 2. simpl.
  destruct (Z.eqb_spec u u') as [E|_]; [congruence|]. rewrite app_nil_r.
  unfold delete_where. rewrite filter_filter. apply filter_ext. intros r.
  unfold owned, owned_kind.
  destruct (Z.eqb_spec (user_id r) u'), (Z.eqb_spec (user_id r) u);
    simpl; rewrite ?andb_false_r, ?andb_true_r; try reflexivity; congruence.
Qed.

(** X3: after a successful [add_sub] on a table that satisfies the [CHECK]
    constraint, the listing of that user shows the new entry as the only
    one of its kind, next to the entries of the other kind as they were;
    and the listing of every other user is the one from before. *)
Theorem add_sub_then_list_subs : forall u c k dt now db db',
  table_checked db ->
  add_sub u c k dt now db = inr db' ->
  list_subs u db'
    = (if (k =? "daily")%string
       then (k, dt) :: map sub_entry (subs_of u "hourly" db)
       else map sub_entry (subs_of u "daily" db) ++ [(k, dt)]) /\
  (forall u', u' <> u -> list_subs u' db' = list_subs u' db).
Proof.
  intros u c k dt now db db' Hc H. split.
  - rewrite (list_subs_checked u db' (add_sub_checked _ _ _ _ _ _ _ Hc H)).
    destruct (add_sub_inr _ _ _ _ _ _ _ H) as [[-> | ->] _]; simpl.
    + rewrite (add_sub_replaces _ _ _ _ _ _ _ H).
      rewrite (add_sub_others _ _ _ _ _ _ _ u "daily" H) by congruence.
      reflexivity.
    + rewrite (add_sub_replaces _ _ _ _ _ _ _ H).
      rewrite (add_sub_others _ _ _ _ _ _ _ u "hourly" H) by congruence.
      reflexivity.
  - intros u' Hne. unfold list_subs.
    rewrite (add_sub_owned_other _ _ _ _ _ _ _ u' H Hne). reflexivity.
Qed.

(** Replacing the daily time of user 1 in [both_cadences_db]: the listing
    shows the new time and the hourly entry. *)
Lemma add_sub_then_list_subs_example :
  table_checked both_cadences_db /\
  (exists db',
     add_sub 1 100 "daily" (Some "18:30") "2024-05-02T10:00:00+00:00"
       both_cadences_db = inr db' /\
     list_subs 1 db' = [("daily", Some "18:30"); ("hourly", None)]).
Proof.
  split; [exact both_cadences_db_checked|].
  eexists. split; [reflexivity|].
  destruct (add_sub_then_list_subs 1 100 "daily" (Some "18:30")
              "2024-05-02T10:00:00+00:00" both_cadences_db _
              both_cadences_db_checked eq_refl) as [E _].
  rewrite E. reflexivity.
Defined.

(** X4: after [remove_all_subs] the listing of that user is empty and the
    listing of every other user is the one from before; a second call
    finds nothing, returns 0 and leaves the database as the first call
    left it. *)
Theorem remove_all_subs_then_list_subs : forall u db,
  list_subs u (snd (remove_all_subs u db)) = [] /\
  (forall u', u' <> u ->
     list_subs u' (snd (remove_all_subs u db)) = list_subs u' db) /\
  remove_all_subs u (snd (remove_all_subs u db))
    = (0, snd (remove_all_subs u db)).
Proof.
  intros u db. unfold remove_all_subs, list_subs. simpl.
  assert (E : filter (owned u) (delete_where (owned u) (rows db)) = [])
    by apply filter_delete_same.
  split; [rewrite E; reflexivity|]. split.
  - intros u' Hne. unfold delete_where. rewrite filter_filter.
    f_equal. f_equal. apply filter_ext. intros r. unfold owned.
    destruct (Z.eqb_spec (user_id r) u), (Z.eqb_spec (user_id r) u');
      simpl; try reflexivity; congruence.
  - rewrite E. simpl. f_equal. f_equal.
    unfold delete_where. rewrite filter_filter. apply filter_ext.
    intros r. destruct (owned u r); reflexivity.
Qed.

Lemma listing_short u db :
  table_checked db -> at_most_one_per_kind db ->
  (List.length (list_subs u db) <= 2)%nat /\ NoDup (map fst (list_subs u db)).
Proof.
  intros Hc Hinv. destruct (Hinv u) as [Hh Hd].
  rewrite (list_subs_checked u _ Hc).
  assert (Kd : forall r, In r (subs_of u "daily" db) -> kind r = "daily").
  { intros r Hr. apply filter_In in Hr as [_ Hr].
    apply owned_kind_spec in Hr. tauto. }
  assert (Kh : forall r, In r (subs_of u "hourly" db) -> kind r = "hourly").
  { intros r Hr. apply filter_In in Hr as [_ Hr].
    apply owned_kind_spec in Hr. tauto. }
  destruct (subs_of u "daily" db) as [|d [|d' D]];
    destruct (subs_of u "hourly" db) as [|h [|h' H]];
    simpl in *; try lia;
    try rewrite (Kd d (or_introl eq_refl));
    try rewrite (Kh h (or_introl eq_refl));
    (split; [lia|]); repeat constructor; simpl; intuition discriminate.
Qed.

Lemma init_db_at_most_one : at_most_one_per_kind init_db.
Proof. intros v. simpl. lia. Qed.

(** X5: in every table built from the empty one by the store functions, a
    user's listing has at most two entries, and no two of them have the
    same kind. *)
Theorem reachable_listing_short : forall ops u,
  (List.length (list_subs u (run ops init_db)) <= 2)%nat /\
  NoDup (map fst (list_subs u (run ops init_db))).
Proof.
  intros ops u. apply listing_short.
  - apply (run_checked ops init_db init_db_checked).
  - apply run_invariant, init_db_at_most_one.
Qed.

End StoreMore.

(** * Properties of the other commands and of the callbacks *)

Module CommandFacts.
Import Store Notifier Props MoreProps Handlers Commands StoreFacts StoreMore.

Lemma list_subs_nil u db :
  list_subs u db = [] <-> forall r, In r (rows db) -> user_id r <> u.
Proof.
  unfold list_subs. split.
  - intros H r Hin Hu.
    assert (Hr : In r (filter (owned u) (rows db))).
    { apply filter_In. split; [exact Hin|]. apply Z.eqb_eq, Hu. }
    apply (Permutation_in _ (Permutation_sym (order_by_kind_perm _))) in Hr.
    apply (in_map sub_entry) in Hr. rewrite H in Hr. destruct Hr.
  - intros H. rewrite filter_none; [reflexivity|].
    intros r Hin. apply Z.eqb_neq, H, Hin.
Qed.

Lemma cmd_mysubs_no_active u db :
  cmd_mysubs u db = NoActive <-> list_subs u db = [].
Proof.
  unfold cmd_mysubs. destruct (list_subs u db); split; congruence.
Qed.

(** X6: [/unsubscribe] answers that the subscriptions were removed exactly
    when the user owned one; after it [/mysubs] of that user reports no
    active subscription, and a second [/unsubscribe] answers that there
    was none. *)
Theorem cmd_unsubscribe_answers : forall u db,
  (fst (cmd_unsubscribe u db) = AllRemoved <->
   exists r, In r (rows db) /\ user_id r = u) /\
  cmd_mysubs u (snd (cmd_unsubscribe u db)) = NoActive /\
  fst (cmd_unsubscribe u (snd (cmd_unsubscribe u db))) = NothingToRemove.
Proof.
  intros u db. unfold cmd_unsubscribe, remove_all_subs. simpl.
  assert (E : filter (owned u) (delete_where (owned u) (rows db)) = [])
    by apply filter_delete_same.
  split; [|split].
  - destruct (filter (owned u) (rows db)) as [|r t] eqn:F; simpl.
    + split; [discriminate|]. intros (r & Hin & Hu).
      assert (Hr : In r (filter (owned u) (rows db))).
      { apply filter_In. split; [exact Hin|]. apply Z.eqb_eq, Hu. }
      rewrite F in Hr. destruct Hr.
    + split; [|reflexivity]. intros _. exists r.
      assert (Hr : In r (filter (owned u) (rows db))) by (rewrite F; left; reflexivity).
      apply filter_In in Hr as [Hin Hu]. apply Z.eqb_eq in Hu. auto.
  - apply cmd_mysubs_no_active. unfold list_subs. simpl. rewrite E. reflexivity.
  - rewrite E. reflexivity.
Qed.

(** X7: on a table built from the empty one by the store functions,
    [/mysubs] reports no active subscription exactly when the user owns no
    row; otherwise its lines are the heading, one or two subscription
    lines and the hint, and every daily line carries a time that is not
    empty, never [None]. *)
Theorem cmd_mysubs_lines : forall ops u,
  (cmd_mysubs u (run ops init_db) = NoActive <->
   forall r, In r (rows (run ops init_db)) -> user_id r <> u) /\
  (forall lines,
     cmd_mysubs u (run ops init_db) = Listing lines ->
     exists body,
       lines = Heading :: body ++ [CancelHint] /\
       (1 <= List.length body <= 2)%nat /\
       forall l, In l body ->
         l = HourlyLine \/ exists t, l = DailyLine (Some t) /\ t <> EmptyString).
Proof.
  intros ops u. split.
  - rewrite cmd_mysubs_no_active. apply list_subs_nil.
  - intros lines H. unfold cmd_mysubs in H.
    destruct (run_checked ops init_db init_db_checked) as [Hc Ht].
    destruct (listing_short u (run ops init_db) Hc
                (run_invariant ops init_db init_db_at_most_one)) as [Hlen _].
    assert (Hent : forall e, In e (list_subs u (run ops init_db)) ->
              fst e = "hourly" \/ exists t, e = ("daily", Some t) /\ t <> EmptyString).
    { intros e He. unfold list_subs in He.
      apply in_map_iff in He as (r & <- & Hr).
      apply (Permutation_in _ (order_by_kind_perm _)) in Hr.
      apply filter_In in Hr as [Hr _].
      pose proof (Hc r Hr) as Hk. apply check_kind_spec in Hk.
      destruct Hk as [Hk | Hk]; [left; exact Hk|right].
      specialize (Ht r Hr Hk). unfold sub_entry. rewrite Hk.
      destruct (daily_time r) as [[|a t]|]; try discriminate.
      exists (String a t). split; [reflexivity|discriminate]. }
    destruct (list_subs u (run ops init_db)) as [|e subs] eqn:L; [discriminate|].
    injection H as <-. exists (map sub_line (e :: subs)).
    split; [reflexivity|]. split; [rewrite length_map; simpl in *; lia|].
    intros l Hl. apply in_map_iff in Hl as (x & <- & Hx).
    unfold sub_line. destruct (Hent x Hx) as [Hh | (t & -> & Hne)].
    + rewrite Hh. left. reflexivity.
    + right. exists t. simpl. auto.
Qed.

Lemma time_not_empty (x y : string) : (x ++ ":" ++ y)%string <> EmptyString.
Proof. destruct x; discriminate. Qed.

(** X8: after [/subscribe_daily] with an argument that is a time of day,
    on a table that satisfies the [CHECK] constraint, [/mysubs] of that
    user lists the daily line with the stored HH:MM first, then a line
    for each hourly subscription the user had. *)
Theorem subscribe_daily_then_mysubs : forall U text u c now db a hh mm,
  table_checked db ->
  time_arg text = Some a -> valid_time U a hh mm ->
  cmd_mysubs u (snd (cmd_subscribe_daily U text u c now db))
  = Listing (Heading
             :: DailyLine (Some (Text.fmt_02d hh ++ ":" ++ Text.fmt_02d mm)%string)
             :: map (fun _ => HourlyLine) (subs_of u "hourly" db)
             ++ [CancelHint]).
Proof.
  intros U text u c now db a hh mm Hc Ha Hv.
  rewrite (HandlerFacts.cmd_subscribe_daily_valid U text u c now db a hh mm Ha Hv).
  set (t := (Text.fmt_02d hh ++ ":" ++ Text.fmt_02d mm)%string).
  pose proof (add_sub_daily u c t now db (time_not_empty _ _)) as Hadd.
  rewrite Hadd. simpl snd. unfold cmd_mysubs.
  rewrite (list_subs_checked u _ (add_sub_checked _ _ _ _ _ _ _ Hc Hadd)).
  rewrite (add_sub_replaces _ _ _ _ _ _ _ Hadd).
  rewrite (add_sub_others _ _ _ _ _ _ _ u "hourly" Hadd) by congruence.
  simpl. rewrite map_map.
  assert (E : map (fun r => sub_line (sub_entry r)) (subs_of u "hourly" db)
              = map (fun _ => HourlyLine) (subs_of u "hourly" db));
    [|rewrite E; reflexivity].
  apply map_ext_in. intros r Hr. apply filter_In in Hr as [_ Hr].
  apply owned_kind_spec in Hr as [_ Hk].
  unfold sub_line, sub_entry. simpl. rewrite Hk. reflexivity.
Qed.

(** User 1 of [both_cadences_db] moves the daily time to 7:30. *)
Lemma subscribe_daily_then_mysubs_example :
  table_checked both_cadences_db /\
  time_arg (Some (Text.of_string "/subscribe_daily 7:30"))
    = Some (Text.of_string "7:30") /\
  valid_time Text.sample_unicode (Text.of_string "7:30") 7 30 /\
  cmd_mysubs 1 (snd (cmd_subscribe_daily Text.sample_unicode
                       (Some (Text.of_string "/subscribe_daily 7:30")) 1 100
                       "2024-05-02T10:00:00+00:00" both_cadences_db))
  = Listing [Heading; DailyLine (Some "07:30"); HourlyLine; CancelHint].
Proof.
  assert (Hv : valid_time Text.sample_unicode (Text.of_string "7:30") 7 30).
  { exists (Text.of_string "7"), (Text.of_string "30").
    split; [reflexivity|].
    split; [discriminate|]. split; [discriminate|].
    split; [reflexivity|]. split; [reflexivity|]. lia. }
  split; [exact both_cadences_db_checked|]. split; [reflexivity|].
  split; [exact Hv|].
  rewrite (subscribe_daily_then_mysubs Text.sample_unicode
             (Some (Text.of_string "/subscribe_daily 7:30")) 1 100
             "2024-05-02T10:00:00+00:00" both_cadences_db
             (Text.of_string "7:30") 7 30
             both_cadences_db_checked eq_refl Hv).
  reflexivity.
Defined.

(** ** Text below U+0080 *)

Lemma forallb_rev {A} (p : A -> bool) l : forallb p l = true -> forallb p (rev l) = true.
Proof.
  rewrite !forallb_forall. intros H x Hx. apply H, in_rev, Hx.
Qed.

Lemma split_ws_aux_all (p : N -> bool) s : forall cur,
  forallb p s = true -> forallb p cur = true ->
  Forall (fun w => forallb p w = true) (Text.split_ws_aux s cur).
Proof.
  induction s as [|a s IH]; intros cur Hs Hcur; simpl.
  - destruct cur as [|x cur]; [constructor|].
    constructor; [|constructor]. apply forallb_rev, Hcur.
  - simpl in Hs. apply andb_true_iff in Hs as [Ha Hs].
    destruct (Text.isspace a).
    + specialize (IH [] Hs eq_refl).
      destruct cur as [|x cur]; [exact IH|].
      constructor; [|exact IH]. apply forallb_rev, Hcur.
    + apply IH; [exact Hs|]. simpl. rewrite Ha, Hcur. reflexivity.
Qed.

Lemma split_on_all (p : N -> bool) c s :
  forallb p s = true ->
  Forall (fun w => forallb p w = true) (Text.split_on c s).
Proof.
  induction s as [|a s IH]; simpl; intros Hs.
  - repeat constructor.
  - apply andb_true_iff in Hs as [Ha Hs]. specialize (IH Hs).
    destruct (a =? c)%N.
    + constructor; [reflexivity|exact IH].
    + destruct (Text.split_on c s) as [|w ws].
      * constructor; [simpl; rewrite Ha; reflexivity|constructor].
      * pose proof (Forall_inv IH) as Hw. pose proof (Forall_inv_tail IH) as Hws.
        simpl in Hw.
        constructor; [simpl; rewrite Ha, Hw; reflexivity|exact Hws].
Qed.

(** [len(s.split(c)) == s.count(c) + 1]. *)
Lemma split_on_length c s :
  Z.of_nat (List.length (Text.split_on c s)) = Text.count c s + 1.
Proof.
  induction s as [|a s IH]; [reflexivity|].
  pose proof (HandlerFacts.count_nonneg c s) as Hn.
  cbn [Text.split_on Text.count]. destruct (a =? c)%N.
  - cbn [List.length]. rewrite Nat2Z.inj_succ. lia.
  - destruct (Text.split_on c s); cbn [List.length] in *;
      rewrite ?Nat2Z.inj_succ in *; lia.
Qed.

Section Ascii.
Variable U : Text.unicode_db.

Lemma ascii_isdigit_decimal s :
  is_ascii s = true -> forallb (Text.isdigit_char U) s = true ->
  forallb (Text.isdecimal_char U) s = true.
Proof.
  unfold is_ascii. induction s as [|a s IH]; simpl; [reflexivity|].
  intros Ha Hd. apply andb_true_iff in Ha as [Ha Hs].
  apply andb_true_iff in Hd as [Hd Hds].
  rewrite (IH Hs Hds), andb_true_r.
  unfold Text.isdigit_char in Hd. apply N.ltb_lt in Ha.
  rewrite (Text.digit_not_decimal_ascii U Ha), orb_false_r in Hd. exact Hd.
Qed.

Lemma decimal_digits_value s :
  forallb (Text.isdecimal_char U) s = true ->
  forall acc, exists v, Text.digits_value U s acc = Some v.
Proof.
  induction s as [|a s IH]; simpl; intros H acc; [eauto|].
  apply andb_true_iff in H as [Ha Hs]. unfold Text.isdecimal_char in Ha.
  destruct (Text.decimal_value U a) as [d|]; [|discriminate]. apply IH, Hs.
Qed.

Lemma ascii_isdigit_int s :
  is_ascii s = true -> Text.isdigit U s = true -> exists v, Text.int U s = inr v.
Proof.
  intros Ha Hd. unfold Text.isdigit in Hd. unfold Text.int.
  destruct s as [|a s]; [discriminate|].
  destruct (decimal_digits_value _ (ascii_isdigit_decimal _ Ha Hd) 0) as [v ->].
  eauto.
Qed.

End Ascii.

(** X9: on a message whose characters are all below U+0080,
    [/subscribe_daily] never raises: it ends with one of its answers. *)
Theorem cmd_subscribe_daily_ascii_answers : forall U text u c now db,
  is_ascii (match text with Some s => s | None => [] end) = true ->
  exists r, fst (cmd_subscribe_daily U text u c now db) = inr r.
Proof.
  intros U text u c now db Ha. unfold cmd_subscribe_daily.
  pose proof (split_ws_aux_all _ _ [] Ha eq_refl) as Hparts.
  fold (Text.split (match text with Some s => s | None => [] end)) in Hparts.
  destruct (Text.split _) as [|p0 [|a rest]];
    [eexists; reflexivity|eexists; reflexivity|].
  pose proof (Forall_inv (Forall_inv_tail Hparts)) as Harg. simpl in Harg.
  destruct (Text.count Text.colon a =? 1) eqn:Ec; cbn [negb];
    [|eexists; reflexivity].
  apply Z.eqb_eq in Ec.
  pose proof (split_on_length Text.colon a) as Hlen. rewrite Ec in Hlen.
  pose proof (split_on_all _ Text.colon a Harg) as Hps.
  destruct (Text.split_on Text.colon a) as [|hs [|ms [|x l]]];
    cbn [List.length] in Hlen; rewrite ?Nat2Z.inj_succ in Hlen; try lia.
  pose proof (Forall_inv Hps) as Hhs.
  pose proof (Forall_inv (Forall_inv_tail Hps)) as Hms. simpl in Hhs, Hms.
  destruct (Text.isdigit U hs) eqn:Dh; cbn [negb andb]; [|eexists; reflexivity].
  destruct (Text.isdigit U ms) eqn:Dm; cbn [negb andb]; [|eexists; reflexivity].
  destruct (ascii_isdigit_int U hs Hhs Dh) as [hh ->].
  destruct (ascii_isdigit_int U ms Hms Dm) as [mm ->].
  destruct ((0 <=? hh) && (hh <=? 23) && (0 <=? mm) && (mm <=? 59));
    cbn [negb]; [|eexists; reflexivity].
  rewrite (add_sub_daily u c _ now db (time_not_empty _ _)).
  eexists; reflexivity.
Qed.

(** A message in plain letters and digits. *)
Lemma cmd_subscribe_daily_ascii_answers_example :
  is_ascii (Text.of_string "/subscribe_daily 25:99") = true /\
  exists r,
    fst (cmd_subscribe_daily Text.sample_unicode
           (Some (Text.of_string "/subscribe_daily 25:99")) 1 100 "" init_db)
      = inr r.
Proof.
  split; [reflexivity|].
  apply (cmd_subscribe_daily_ascii_answers Text.sample_unicode
           (Some (Text.of_string "/subscribe_daily 25:99"))
           1 100 "" init_db eq_refl).
Defined.

(** ** Callbacks *)

Lemma prefix_app p : forall s,
  String.prefix p s = true <-> exists t, s = (p ++ t)%string.
Proof.
  induction p as [|a p IH]; intros s.
  - split; [intros _; exists s; reflexivity|intros _; destruct s; reflexivity].
  - destruct s as [|b s]; simpl.
    + split; [discriminate|]. intros [t Ht]. discriminate Ht.
    + destruct (ascii_dec a b) as [<- | Hne].
      * rewrite IH. split; intros [t Ht]; exists t; congruence.
      * split; [discriminate|]. intros [t Ht]. congruence.
Qed.

Lemma route_sub_daily t : route ("sub:daily:" ++ t) = Some CbSubDaily.
Proof.
  unfold route.
  assert (P : String.prefix "sub:daily:" ("sub:daily:" ++ t) = true)
    by (apply prefix_app; exists t; reflexivity).
  rewrite P. reflexivity.
Qed.

Lemma split_max_zero c s : split_max c 0 s = [s].
Proof. destruct s; reflexivity. Qed.

Lemma split_max_sub_daily t :
  split_max ":" 2 ("sub:daily:" ++ t) = ["sub"; "daily"; t].
Proof. cbn. rewrite split_max_zero. reflexivity. Qed.

Lemma cb_sub_daily_suffix t u c now db :
  t <> EmptyString ->
  cb_sub_daily ("sub:daily:" ++ t) u c now db
  = inr (t, mkDB (delete_where (owned_kind u "daily") (rows db)
                  ++ [mkRow (next_id db) u c "daily" (Some t) now])
                 (next_id db)).
Proof.
  intros Ht. unfold cb_sub_daily.
  rewrite (split_max_sub_daily t). cbn [nth_error].
  rewrite (add_sub_daily u c t now db Ht). reflexivity.
Qed.

(** X10: the data that reach [cb_sub_daily] are the texts that begin with
    [sub:daily:]; the handler takes the rest of the text, colons included,
    as the time: it raises [ValueError] when the rest is empty, and
    otherwise stores the rest as it is, as the user's only daily
    subscription. *)
Theorem cb_sub_daily_stores_suffix :
  (forall data,
     route data = Some CbSubDaily <-> exists t, data = ("sub:daily:" ++ t)%string) /\
  (forall u c now db,
     cb_sub_daily "sub:daily:" u c now db = inl (Exception "ValueError")) /\
  (forall t u c now db,
     t <> EmptyString ->
     exists db',
       cb_sub_daily ("sub:daily:" ++ t) u c now db = inr (t, db') /\
       subs_of u "daily" db' = [mkRow (next_id db) u c "daily" (Some t) now]).
Proof.
  split; [|split].
  - intros data. split.
    + unfold route.
      destruct (data =? "refresh")%string; [discriminate|].
      destruct (data =? "sub:menu")%string; [discriminate|].
      destruct (data =? "sub:hourly")%string; [discriminate|].
      destruct (String.prefix "sub:daily:" data) eqn:P.
      * intros _. apply prefix_app, P.
      * destruct (data =? "unsub:all")%string; discriminate.
    + intros [t ->]. apply route_sub_daily.
  - intros u c now db. reflexivity.
  - intros t u c now db Ht. eexists. split.
    + apply cb_sub_daily_suffix, Ht.
    + apply (add_sub_replaces u c "daily" (Some t) now db).
      apply add_sub_daily, Ht.
Qed.

(** A time of day that [strftime] prints is stored by the callback as it
    is, and makes the chat due in that minute. *)
Lemma cb_sub_daily_fires hh mm u c now db :
  exists db',
    cb_sub_daily ("sub:daily:" ++ strftime_HM (mkDatetime hh mm)) u c now db
      = inr (strftime_HM (mkDatetime hh mm), db') /\
    In c (due_daily (mkDatetime hh mm) db').
Proof.
  eexists. split.
  - apply cb_sub_daily_suffix. apply time_not_empty.
  - apply NotifierFacts.select_distinct_daily_In.
    exists (mkRow (next_id db) u c "daily"
              (Some (strftime_HM (mkDatetime hh mm))) now).
    simpl. repeat split; try reflexivity.
    apply in_or_app. right. left. reflexivity.
Qed.

(** X11: every button of the two keyboards carries data that some
    callback handler accepts; and each button of the subscription menu
    that reaches [cb_sub_daily] stores a time that [strftime] prints in a
    minute of the day, so that the chat is due in that minute. *)
Theorem keyboard_buttons_handled :
  Forall (fun data => route data <> None)
         (List.concat refresh_keyboard ++ List.concat subscribe_menu) /\
  (forall u c now db,
     Forall (fun data =>
               route data = Some CbSubDaily ->
               exists hh mm db',
                 wall_clock (mkDatetime hh mm) /\
                 cb_sub_daily data u c now db
                   = inr (strftime_HM (mkDatetime hh mm), db') /\
                 In c (due_daily (mkDatetime hh mm) db'))
            (List.concat subscribe_menu)).
Proof.
  split.
  - repeat (apply Forall_cons; [discriminate|]). apply Forall_nil.
  - intros u c now db.
    assert (W : forall hh mm, 0 <= hh <= 23 -> 0 <= mm <= 59 ->
              exists hh' mm' db',
                wall_clock (mkDatetime hh' mm') /\
                cb_sub_daily ("sub:daily:" ++ strftime_HM (mkDatetime hh mm))
                  u c now db
                  = inr (strftime_HM (mkDatetime hh' mm'), db') /\
                In c (due_daily (mkDatetime hh' mm') db')).
    { intros hh mm Hh Hm.
      destruct (cb_sub_daily_fires hh mm u c now db) as (db' & E & F).
      exists hh, mm, db'. split; [split; assumption|]. split; assumption. }
    simpl.
    apply Forall_cons; [discriminate|].
    apply Forall_cons; [intros _; apply (W 9 0); lia|].
    apply Forall_cons; [intros _; apply (W 12 0); lia|].
    apply Forall_cons; [intros _; apply (W 18 0); lia|].
    apply Forall_cons; [discriminate|]. apply Forall_nil.
Qed.

End CommandFacts.

(** * Further properties of the scheduler *)

Module NotifierMore.
Import Store Notifier Props MoreProps Commands StoreFacts NotifierFacts.

Lemma upto_first_failure_firstn fails l :
  exists k, upto_first_failure fails l = firstn k l.
Proof.
  induction l as [|c l [k IH]]; [exists 0%nat; reflexivity|].
  simpl. destruct (fails c).
  - exists 1%nat. reflexivity.
  - exists (S k). simpl. rewrite IH. reflexivity.
Qed.

Lemma firstn_NoDup {A} (l : list A) : forall k, NoDup l -> NoDup (firstn k l).
Proof.
  induction l as [|x l IH]; intros k H; destruct k; simpl; try constructor.
  - inversion H as [|? ? Hx _]; subst. intros Hin. apply Hx.
    rewrite <- (firstn_skipn k l). apply in_or_app. left. exact Hin.
  - inversion H; subst. apply IH. assumption.
Qed.

Lemma firstn_In {A} (l : list A) k x : In x (firstn k l) -> In x l.
Proof.
  intros H. rewrite <- (firstn_skipn k l). apply in_or_app. left. exact H.
Qed.

Section Tick.
Context {Rates : Type} (fmt_rates : Rates -> string).

(** The trace of the sending loop, in closed form. *)
Lemma send_all_trace (env : tick_env Rates) text chats :
  fst (send_all env text chats)
  = map (fun c => SendMessage c text (send_message env c))
        (upto_first_failure (fun c => is_some (send_message env c)) chats).
Proof.
  induction chats as [|c cs IH]; simpl; [reflexivity|].
  destruct (send_message env c) as [e|] eqn:Hs; simpl; [reflexivity|].
  unfold bind, emit. destruct (send_all env text cs) as [tr r].
  simpl in *. rewrite IH. reflexivity.
Qed.

(** The trace of the body of an iteration, whatever raises in it: nothing,
    or deliveries of the one snapshot to a first part of the hourly chats
    and then to a first part of the daily chats. *)
Lemma tick_body_trace (env : tick_env Rates) now db :
  fst (tick_body fmt_rates env now db) = [] \/
  exists rates i j,
    get_rates env = inr rates /\
    fst (tick_body fmt_rates env now db)
    = map (fun c => SendMessage c (fmt_rates rates) (send_message env c))
          (firstn i (due_hourly now db) ++ firstn j (due_daily now db)).
Proof.
  unfold tick_body, bind, lift, guard, ret, raise, due_hourly, due_daily.
  destruct (get_rates env) as [e0|rates]; simpl; [auto|].
  destruct (db_error env Connect); simpl; [auto|].
  pose proof (send_all_trace env (fmt_rates rates) (select_distinct_hourly db)) as T1.
  pose proof (send_all_trace env (fmt_rates rates)
                (select_distinct_daily (strftime_HM now) db)) as T2.
  destruct (upto_first_failure_firstn (fun c => is_some (send_message env c))
              (select_distinct_hourly db)) as [i Ei].
  destruct (upto_first_failure_firstn (fun c => is_some (send_message env c))
              (select_distinct_daily (strftime_HM now) db)) as [j Ej].
  rewrite Ei in T1. rewrite Ej in T2.
  destruct (send_all env (fmt_rates rates) (select_distinct_hourly db))
    as [tr1 r1].
  destruct (send_all env (fmt_rates rates)
              (select_distinct_daily (strftime_HM now) db)) as [tr2 r2].
  simpl in T1, T2. subst tr1 tr2.
  destruct (minute now =? 0); simpl.
  - destruct (db_error env SelectHourly); simpl; [auto|].
    right. exists rates, i.
    destruct r1 as [e|[]]; simpl.
    + exists 0%nat. split; [reflexivity|]. simpl. rewrite app_nil_r. reflexivity.
    + destruct (db_error env SelectDaily); simpl.
      * exists 0%nat. split; [reflexivity|]. simpl. rewrite !app_nil_r. reflexivity.
      * exists j. split; [reflexivity|]. rewrite map_app. reflexivity.
  - destruct (db_error env SelectDaily); simpl; [auto|].
    right. exists rates, 0%nat, j. split; reflexivity.
Qed.

Lemma attempts_map_send (f : Z -> string) (g : Z -> option exn) l :
  attempts (map (fun c => SendMessage c (f c) (g c)) l) = l.
Proof. induction l as [|c l IH]; simpl; [reflexivity|]. rewrite IH. reflexivity. Qed.

(** The chats tried by the body of an iteration, whatever raises in it. *)
Lemma tick_body_attempts (env : tick_env Rates) now db :
  exists i j,
    attempts (fst (tick_body fmt_rates env now db))
    = firstn i (due_hourly now db) ++ firstn j (due_daily now db).
Proof.
  destruct (tick_body_trace env now db) as [E | (rates & i & j & _ & E)];
    rewrite E.
  - exists 0%nat, 0%nat. reflexivity.
  - exists i, j.
    apply (attempts_map_send (fun _ => fmt_rates rates) (send_message env)).
Qed.

Lemma due_hourly_In now db c :
  In c (due_hourly now db) ->
  minute now = 0 /\
  exists r, In r (rows db) /\ kind r = "hourly" /\ chat_id r = c.
Proof.
  unfold due_hourly. destruct (minute now =? 0) eqn:E; [|intros []].
  apply Z.eqb_eq in E. intros H. split; [exact E|].
  apply select_distinct_hourly_In, H.
Qed.

Lemma due_hourly_NoDup now db : NoDup (due_hourly now db).
Proof.
  unfold due_hourly. destruct (minute now =? 0);
    [apply distinct_NoDup|constructor].
Qed.

(** X12: whatever raises during an iteration, a chat it tries to deliver
    to is the chat of an hourly row, in minute 0, or of a daily row whose
    time is the clock reading printed as HH:MM; and no chat is tried more
    than twice in one iteration. *)
Theorem tick_attempts_within_due : forall (env : tick_env Rates) now db,
  (forall c,
     In c (attempts (fst (tick_body fmt_rates env now db))) ->
     exists r,
       In r (rows db) /\ chat_id r = c /\
       ((kind r = "hourly" /\ minute now = 0) \/
        (kind r = "daily" /\ daily_time r = Some (strftime_HM now)))) /\
  (forall c,
     (count_occ Z.eq_dec (attempts (fst (tick_body fmt_rates env now db))) c
      <= 2)%nat).
Proof.
  intros env now db.
  destruct (tick_body_attempts env now db) as (i & j & E). rewrite E.
  split.
  - intros c Hin. apply in_app_or in Hin as [Hin | Hin]; apply firstn_In in Hin.
    + apply due_hourly_In in Hin as (Hm & r & Hr & Hk & Hc).
      exists r. auto.
    + apply select_distinct_daily_In in Hin as (r & Hr & Hk & Ht & Hc).
      exists r. auto.
  - intros c. rewrite count_occ_app.
    pose proof (firstn_NoDup _ i (due_hourly_NoDup now db)) as N1.
    pose proof (firstn_NoDup _ j (distinct_NoDup _ : NoDup (due_daily now db))) as N2.
    rewrite (NoDup_count_occ Z.eq_dec) in N1, N2.
    specialize (N1 c). specialize (N2 c). lia.
Qed.

(** X13: whatever raises during an iteration, every message it tries to
    deliver is the rendering of the one snapshot [get_rates] returned at
    its start, and the outcome recorded for a chat is the outcome of
    [send_message] for that chat. *)
Theorem tick_sends_one_snapshot : forall (env : tick_env Rates) now db,
  Forall (fun ev =>
            exists rates c,
              get_rates env = inr rates /\
              ev = SendMessage c (fmt_rates rates) (send_message env c))
         (fst (tick_body fmt_rates env now db)).
Proof.
  intros env now db.
  destruct (tick_body_trace env now db) as [E | (rates & i & j & Hr & E)];
    rewrite E; [constructor|].
  apply Forall_forall. intros ev Hev.
  apply in_map_iff in Hev as (c & <- & _). exists rates, c. auto.
Qed.

(** X14: once [/unsubscribe] has run for a user, a chat that only rows of
    that user named is not tried by any iteration, whatever the clock
    reads and whatever raises. *)
Theorem unsubscribed_chat_not_tried : forall (env : tick_env Rates) now db u c,
  (forall r, In r (rows db) -> chat_id r = c -> user_id r = u) ->
  ~ In c (attempts (fst (tick_body fmt_rates env now
                           (snd (cmd_unsubscribe u db))))).
Proof.
  intros env now db u c Honly Hin.
  destruct (tick_body_attempts env now (snd (cmd_unsubscribe u db)))
    as (i & j & E).
  rewrite E in Hin.
  assert (Hrow : exists r, In r (rows (snd (cmd_unsubscribe u db))) /\ chat_id r = c).
  { apply in_app_or in Hin as [Hin | Hin]; apply firstn_In in Hin.
    - apply due_hourly_In in Hin as (_ & r & Hr & _ & Hc). eauto.
    - apply select_distinct_daily_In in Hin as (r & Hr & _ & _ & Hc). eauto. }
  destruct Hrow as (r & Hr & Hc).
  unfold cmd_unsubscribe, remove_all_subs, delete_where in Hr. simpl in Hr.
  apply filter_In in Hr as [Hr Hu].
  unfold owned in Hu. apply negb_true_iff, Z.eqb_neq in Hu.
  apply Hu, Honly; assumption.
Qed.

(** X15: after [cb_sub_hourly], which always succeeds, an iteration in
    minute 0 in which nothing raises delivers the rendering of the
    snapshot to the chat, and the hourly query lists the chat once. *)
Theorem hourly_subscription_delivered :
  forall (env : tick_env Rates) now db u c ts rates,
  minute now = 0 ->
  get_rates env = inr rates -> db_ok env ->
  (forall x, send_message env x = None) ->
  exists db',
    cb_sub_hourly u c ts db = inr db' /\
    count_occ Z.eq_dec (due_hourly now db') c = 1%nat /\
    In (SendMessage c (fmt_rates rates) None)
       (fst (tick_body fmt_rates env now db')) /\
    snd (tick_body fmt_rates env now db') = inr tt.
Proof.
  intros env now db u c ts rates Hm Hf Hdb Hs.
  unfold cb_sub_hourly. rewrite add_sub_hourly. eexists.
  split; [reflexivity|].
  set (db' := mkDB _ _).
  assert (Hin : In c (due_hourly now db')).
  { unfold due_hourly. rewrite Hm. simpl.
    apply select_distinct_hourly_In.
    exists (mkRow (next_id db) u c "hourly" None ts).
    repeat split. apply in_or_app. right. left. reflexivity. }
  split; [|split].
  - pose proof (due_hourly_NoDup now db') as N.
    rewrite (NoDup_count_occ Z.eq_dec) in N. specialize (N c).
    apply (count_occ_In Z.eq_dec) in Hin. lia.
  - rewrite (tick_body_sends fmt_rates env now db' rates Hf Hdb).
    rewrite !send_all_ok by (intros; apply Hs). simpl.
    apply in_or_app. left. apply in_map_iff. exists c. auto.
  - rewrite (tick_body_sends fmt_rates env now db' rates Hf Hdb).
    rewrite !send_all_ok by (intros; apply Hs). reflexivity.
Qed.

End Tick.

(** Chat 101 of [three_daily_db] once user 1 has unsubscribed, at 09:00. *)
Lemma unsubscribed_chat_not_tried_example :
  (forall r, In r (rows three_daily_db) -> chat_id r = 101 -> user_id r = 1) /\
  attempts (fst (tick_body render (env_ok 1) nine_oclock
                   (snd (cmd_unsubscribe 1 three_daily_db)))) = [102; 103] /\
  ~ In 101 (attempts (fst (tick_body render (env_ok 1) nine_oclock
                             (snd (cmd_unsubscribe 1 three_daily_db))))).
Proof.
  assert (H : forall r, In r (rows three_daily_db) ->
                        chat_id r = 101 -> user_id r = 1).
  { intros r Hin. simpl in Hin.
    destruct Hin as [<- | [<- | [<- | []]]]; simpl; intros E;
      try reflexivity; discriminate E. }
  split; [exact H|]. split; [reflexivity|].
  exact (unsubscribed_chat_not_tried render (env_ok 1) nine_oclock
           three_daily_db 1 101 H).
Defined.

(** User 7 subscribes chat 700 hourly on [three_daily_db]; the iteration
    at 09:00 delivers to it. *)
Lemma hourly_subscription_delivered_example :
  minute nine_oclock = 0 /\
  get_rates (env_ok 1) = inr tt /\
  db_ok (env_ok 1) /\
  (forall x, send_message (env_ok 1) x = None) /\
  exists db',
    cb_sub_hourly 7 700 "2024-05-02T08:00:00+00:00" three_daily_db = inr db' /\
    In (SendMessage 700 "rates" None)
       (fst (tick_body render (env_ok 1) nine_oclock db')).
Proof.
  split; [reflexivity|]. split; [reflexivity|].
  split; [intros s; reflexivity|]. split; [intros x; reflexivity|].
  destruct (hourly_subscription_delivered render (env_ok 1) nine_oclock
              three_daily_db 7 700 "2024-05-02T08:00:00+00:00" tt
              eq_refl eq_refl (fun s => eq_refl) (fun x => eq_refl))
    as (db' & E & _ & Hin & _).
  exists db'. split; assumption.
Defined.

End NotifierMore.

(** * The minute in which a daily subscription is due *)

Module ClockFacts.
Import Store Notifier Props MoreProps.

Lemma string_app_inj (x x' y y' : string) :
  String.length x = String.length x' ->
  (x ++ y)%string = (x' ++ y')%string -> x = x' /\ y = y'.
Proof.
  revert x'. induction x as [|a x IH]; intros [|a' x']; simpl;
    try discriminate.
  - auto.
  - intros [= Hl] [= -> Hr]. destruct (IH x' Hl Hr) as [-> ->]. auto.
Qed.

(** On the minutes of a day [strftime("%H:%M")] is one to one. *)
Lemma strftime_HM_inj d hh mm :
  wall_clock d -> 0 <= hh <= 23 -> 0 <= mm <= 59 ->
  strftime_HM d = (Text.fmt_02d hh ++ ":" ++ Text.fmt_02d mm)%string ->
  hour d = hh /\ minute d = mm.
Proof.
  intros [Wh Wm] Hh Hm E. unfold strftime_HM in E.
  destruct (HandlerFacts.fmt_02d_two_digits (hour d) ltac:(lia)) as [L1 V1].
  destruct (HandlerFacts.fmt_02d_two_digits (minute d) ltac:(lia)) as [L2 V2].
  destruct (HandlerFacts.fmt_02d_two_digits hh ltac:(lia)) as [L3 V3].
  destruct (HandlerFacts.fmt_02d_two_digits mm ltac:(lia)) as [L4 V4].
  apply string_app_inj in E as [E1 E2]; [|congruence].
  simpl in E2. injection E2 as E2.
  rewrite E1 in V1. rewrite E2 in V2. split; congruence.
Qed.

Lemma datetime_of_seconds_wall_clock t : wall_clock (datetime_of_seconds t).
Proof.
  unfold wall_clock, datetime_of_seconds. cbn [hour minute].
  pose proof (Z.mod_pos_bound (t / 3600) 24 ltac:(lia)).
  pose proof (Z.mod_pos_bound (t / 60) 60 ltac:(lia)).
  lia.
Qed.

(** The minute of the day of an instant, from its hour and minute. *)
Lemma minute_of_day t :
  (t / 60) mod 1440
  = 60 * hour (datetime_of_seconds t) + minute (datetime_of_seconds t).
Proof.
  unfold datetime_of_seconds. cbn [hour minute].
  replace (t / 3600) with (t / 60 / 60)
    by (rewrite Z.div_div by lia; reflexivity).
  change 1440 with (60 * 24).
  rewrite Z.rem_mul_r by lia. lia.
Qed.

(** X16: a daily row whose time is the zero-filled HH:MM of an hour [hh]
    and a minute [mm], as [/subscribe_daily] stores it, is matched by the
    daily query of an iteration exactly when the iteration starts in
    minute [60 * hh + mm] of a UTC day. *)
Theorem daily_row_due_minute : forall t hh mm r,
  0 <= hh <= 23 -> 0 <= mm <= 59 ->
  daily_time r = Some (Text.fmt_02d hh ++ ":" ++ Text.fmt_02d mm)%string ->
  (daily_time_is (strftime_HM (datetime_of_seconds t)) r = true <->
   (t / 60) mod 1440 = 60 * hh + mm).
Proof.
  intros t hh mm r Hh Hm Hr.
  rewrite NotifierFacts.daily_time_is_spec, Hr, minute_of_day.
  pose proof (datetime_of_seconds_wall_clock t) as W.
  split.
  - intros [= E]. symmetry in E.
    destruct (strftime_HM_inj _ _ _ W Hh Hm E) as [-> ->]. reflexivity.
  - intros E. destruct W as [Wh Wm].
    assert (hour (datetime_of_seconds t) = hh /\
            minute (datetime_of_seconds t) = mm) as [E1 E2] by lia.
    unfold strftime_HM. rewrite E1, E2. reflexivity.
Qed.

(** A row for 09:05 at 09:05:30 of the second day after the epoch. *)
Lemma daily_row_due_minute_example :
  0 <= 9 <= 23 /\ 0 <= 5 <= 59 /\
  daily_time_is (strftime_HM (datetime_of_seconds 119130))
    (mkRow 1 1 100 "daily" (Some "09:05") "2024-05-01T08:00:00+00:00") = true.
Proof.
  split; [lia|]. split; [lia|].
  apply (daily_row_due_minute 119130 9 5
           (mkRow 1 1 100 "daily" (Some "09:05") "2024-05-01T08:00:00+00:00")
           ltac:(lia) ltac:(lia) eq_refl).
  reflexivity.
Defined.

End ClockFacts.
